(** * generate_pdf.py: report synthesis of the linux-hardening playbook run

    A shallow embedding of [scripts/generate_pdf.py].  The script reads two
    JSON documents (the playbook execution trace and a facts snapshot),
    derives a [system_info] record and a per-task timeline, writes them as
    [final_report.json] and lays them out as [report.pdf].

    The embedding follows the script statement by statement.  Python values
    coming out of [json.load] are modelled by the type [json]; Python
    exceptions by the error monad [result]; the [for] loops with [break]
    and [continue] by structural recursion over the iterated list. *)

From Stdlib Require Import ZArith List String Ascii Bool Lia DecimalString Permutation.
Import ListNotations.
Open Scope string_scope.
Open Scope Z_scope.

(** ** Python values *)

(** What [json.load] returns.  An object is kept as the list of its items in
    insertion order (a Python [dict] iterates in that order); its keys are
    pairwise distinct in every value [json.load] builds.  JSON reals are not
    modelled: the numeric facts the script reads (memory in MB, number of
    vCPUs, mount size in bytes) are integers.  A string is a sequence of
    characters of type [ascii]. *)
#[warnings="-register-all"]
Inductive json : Type :=
| JNull : json
| JBool (b : bool) : json
| JInt (z : Z) : json
| JStr (s : string) : json
| JArr (l : list json) : json
| JObj (kvs : list (string * json)) : json.

(** The exceptions the script's own expressions can raise, and the two
    its output stage can meet: [OSError] when a file cannot be opened for
    writing and FPDF's [FPDFUnicodeEncodingException]. *)
Inductive exn : Type :=
| KeyError : exn
| TypeError : exn
| AttributeError : exn
| IndexError : exn
| OverflowError : exn
| OSError : exn
| FPDFUnicodeEncodingException : exn.

Inductive result (A : Type) : Type :=
| Ok (a : A) : result A
| Raise (e : exn) : result A.
Arguments Ok {A} a.
Arguments Raise {A} e.

Definition bind {A B : Type} (m : result A) (k : A -> result B) : result B :=
  match m with
  | Ok a => k a
  | Raise e => Raise e
  end.

Notation "x <- m ;; k" := (bind m (fun x => k))
  (at level 61, m at next level, right associativity).
Notation "' p <- m ;; k" := (bind m (fun p => k))
  (at level 61, p pattern, m at next level, right associativity).

(** [d.get(k)] on the items of a dict: the value stored under [k], if any. *)
Fixpoint lookup (k : string) (kvs : list (string * json)) : option json :=
  match kvs with
  | [] => None
  | (k', v) :: tl => if String.eqb k k' then Some v else lookup k tl
  end.

(** Truth value of a Python object ([if x:], [not x], [x or y]). *)
Definition truthy (v : json) : bool :=
  match v with
  | JNull => false
  | JBool b => b
  | JInt z => negb (z =? 0)
  | JStr s => negb (String.eqb s "")
  | JArr l => match l with [] => false | _ => true end
  | JObj kvs => match kvs with [] => false | _ => true end
  end.

(** [v.get(k, default)]: only a dict has the method. *)
Definition get_default (v : json) (k : string) (default : json) : result json :=
  match v with
  | JObj kvs => Ok (match lookup k kvs with Some x => x | None => default end)
  | _ => Raise AttributeError
  end.

(** [v.get(k)], whose default is [None]. *)
Definition get (v : json) (k : string) : result json := get_default v k JNull.

(** [v[k]] for a string key [k]: a missing key is a [KeyError]; lists and
    strings take integer indices only; the other values are not
    subscriptable. *)
Definition subscript (v : json) (k : string) : result json :=
  match v with
  | JObj kvs => match lookup k kvs with Some x => Ok x | None => Raise KeyError end
  | _ => Raise TypeError
  end.

(** [v == s] for a string literal [s]. *)
Definition eq_str (v : json) (s : string) : bool :=
  match v with
  | JStr s' => String.eqb s' s
  | _ => false
  end.

(** [needle in s] on strings, and the text after the first occurrence
    ([s.split(needle, 1)[1]] when [needle] occurs in [s]). *)
Fixpoint after_first (needle s : string) : option string :=
  if prefix needle s
  then Some (substring (String.length needle) (String.length s) s)
  else match s with
       | EmptyString => None
       | String _ s' => after_first needle s'
       end.

Definition is_substring (needle s : string) : bool :=
  match after_first needle s with Some _ => true | None => false end.

(** [k in v] for a string [k]: key membership on a dict, element
    membership on a list, substring test on a string. *)
Definition contains (k : string) (v : json) : result bool :=
  match v with
  | JObj kvs => Ok (match lookup k kvs with Some _ => true | None => false end)
  | JArr l => Ok (existsb (fun x => eq_str x k) l)
  | JStr s => Ok (is_substring k s)
  | _ => Raise TypeError
  end.

(** [v.items()]. *)
Definition items (v : json) : result (list (string * json)) :=
  match v with
  | JObj kvs => Ok kvs
  | _ => Raise AttributeError
  end.

Fixpoint chars (s : string) : list json :=
  match s with
  | EmptyString => []
  | String c s' => JStr (String c EmptyString) :: chars s'
  end.

(** The values a [for x in v] visits: the elements of a list, the keys of
    a dict, the characters of a string. *)
Definition iter (v : json) : result (list json) :=
  match v with
  | JArr l => Ok l
  | JObj kvs => Ok (map (fun kv => JStr (fst kv)) kvs)
  | JStr s => Ok (chars s)
  | _ => Raise TypeError
  end.

(** [len(v)]. *)
Definition len (v : json) : result Z :=
  match v with
  | JArr l => Ok (Z.of_nat (List.length l))
  | JObj kvs => Ok (Z.of_nat (List.length kvs))
  | JStr s => Ok (Z.of_nat (String.length s))
  | _ => Raise TypeError
  end.

(** [v[i]] for a natural-number literal [i]: no key of a JSON object is an
    integer, so a dict raises [KeyError]. *)
Definition index (v : json) (i : nat) : result json :=
  match v with
  | JArr l => match nth_error l i with Some x => Ok x | None => Raise IndexError end
  | JStr s => match String.get i s with
              | Some c => Ok (JStr (String c EmptyString))
              | None => Raise IndexError
              end
  | JObj _ => Raise KeyError
  | _ => Raise TypeError
  end.

(** The integer a value stands for in arithmetic and comparisons ([bool]
    is a subclass of [int]). *)
Definition as_number (v : json) : result Z :=
  match v with
  | JInt z => Ok z
  | JBool b => Ok (Z.b2z b)
  | _ => Raise TypeError
  end.

(** ** Numbers as the script prints them *)

(** [round(z / k, 2)] for integers [z] and [k > 0], as a sign and a number
    of hundredths.  Python divides to a double, rounds it to two decimals
    (ties to even, decided on the exact binary value) and [repr] prints the
    shortest decimal that reads back as the same double.  For [|z| < 2^53]
    and [k] a power of two (the script divides by [1024] and [1024**3])
    the quotient is an exact double and the printed text is the decimal
    with the hundredths computed here; the sign is kept on a zero
    ([round(-1 / 1024, 2)] prints as [-0.0]).  A quotient too large for a
    double raises [OverflowError]. *)
Record rounded : Type := { negative : bool; hundredths : Z }.

Definition round_half_even (n d : Z) : Z :=
  let q := n / d in
  let r := n mod d in
  if 2 * r <? d then q
  else if d <? 2 * r then q + 1
  else if Z.even q then q else q + 1.

Definition float_limit : Z := 2 ^ 1024 - 2 ^ 970.

Definition round2_div (z k : Z) : result rounded :=
  if float_limit * k <=? Z.abs z then Raise OverflowError
  else Ok {| negative := z <? 0;
             hundredths := round_half_even (100 * Z.abs z) k |}.

Definition digits (z : Z) : string := NilZero.string_of_int (Z.to_int z).

(** [repr] of a rounded float: at least one decimal, no trailing zero
    after it. *)
Definition rounded_str (r : rounded) : string :=
  let h := hundredths r in
  let frac := h mod 100 in
  (if negative r then "-" else "") ++ digits (h / 100) ++ "." ++
  (if frac mod 10 =? 0 then digits (frac / 10)
   else if frac <? 10 then "0" ++ digits frac
   else digits frac).

(** [', '.join(l)] and ['\n'.join(l)]. *)
Definition newline : string := String (ascii_of_nat 10) EmptyString.

Definition join (sep : string) (l : list string) : string := String.concat sep l.

(** [s.replace('\n', ', ')]. *)
Fixpoint replace_newlines (s : string) : string :=
  match s with
  | EmptyString => EmptyString
  | String c s' =>
      if Ascii.eqb c (ascii_of_nat 10) then ", " ++ replace_newlines s'
      else String c (replace_newlines s')
  end.

(** ** The script *)

(** A file named on the command line: absent, present but not loadable as
    JSON ([open] or [json.load] raises), or holding a JSON value. *)
Inductive file : Type :=
| Missing : file
| Unreadable : file
| Content (j : json) : file.

Definition filesystem : Type := string -> file.

(** The lines the script prints. *)
Inductive message : Type :=
| ErrorLoadingPlaybook : message
| ErrorLoadingFacts : message
| UsingFallback : message
| UnifiedJsonReport (path : string) : message
| PdfReportGenerated (path : string) : message
| Usage : message.

(** [facts_data] and [fact_error] as they stand after section 2 of
    [generate_report]. *)
Record facts_state : Type := { facts_data : json; fact_error : option string }.

Definition no_facts : facts_state := {| facts_data := JObj []; fact_error := None |}.

(** The dict [system_info], field by field.  [Hostname], [Architecture]
    and [Kernel] hold whatever value the facts hold; the other fields are
    f-strings or joined strings. *)
Record system_info : Type := {
  Hostname : json;
  OS : string;
  Architecture : json;
  Kernel : json;
  CPU : string;
  RAM : string;
  Storage : string;
  Network : string
}.

(** An entry of [sequential_tasks]. *)
Record task_result : Type := { task : json; status : string; changed : string }.

(** [final_json]. *)
Record report : Type := {
  timestamp : string;
  report_system_info : system_info;
  playbook_execution : list task_result
}.

(** What the script hands to FPDF: the date line, the rows of the system
    information table and the rows of the task table.  Fonts, colours and
    page breaks are FPDF's. *)
Record pdf : Type := {
  pdf_date : string;
  info_rows : list (string * json);
  task_rows : list (string * string * string)
}.

Inductive artifact : Type :=
| JsonFile (r : report) : artifact
| PdfFile (p : pdf) : artifact.

(** Standard output and the files written so far, oldest first. *)
Record world : Type := { stdout : list message; written : list (string * artifact) }.

Definition start : world := {| stdout := []; written := [] |}.

Definition print (m : message) (w : world) : world :=
  {| stdout := stdout w ++ [m]; written := written w |}.

Definition write (path : string) (a : artifact) (w : world) : world :=
  {| stdout := stdout w; written := written w ++ [(path, a)] |}.

(** How the process ends: [Done] when the script runs to its end,
    [Uncaught] when an exception escapes, [Exit] on [sys.exit]. *)
Inductive ending : Type :=
| Done : ending
| Uncaught (e : exn) : ending
| Exit (code : Z) : ending.

Definition exit_status (e : ending) : Z :=
  match e with
  | Done => 0
  | Uncaught _ => 1
  | Exit code => code
  end.

(** [os.path.join(report_dir, name)]. *)
Definition path_join (dir name : string) : string :=
  if String.eqb dir "" then name
  else if String.eqb (substring (String.length dir - 1) 1 dir) "/" then dir ++ name
  else dir ++ "/" ++ name.

(** What the script relies on outside itself when it produces its
    artifacts: whether a path can be opened for writing ([open(path, 'w')]
    and [pdf.output(path)] raise [OSError] otherwise, for instance when
    [report_dir] does not exist), and whether FPDF can encode a text with
    the core font the script selects ([cell] and [multi_cell] raise
    [FPDFUnicodeEncodingException] on a character outside Latin-1). *)
Record platform : Type := {
  can_write : string -> bool;
  fpdf_encodes : string -> bool
}.

Section Script.

(** [repr] of a list or of a dict, which an f-string prints for such a
    value: Python's own, not the script's. *)
Variable repr_container : json -> string.

(** The two readings of the clock: [datetime.now().isoformat()] for the
    report and [datetime.now().strftime(...)] for the PDF. *)
Variable now_iso : string.
Variable now_text : string.

(** The file system's and FPDF's answers during the run. *)
Variable host : platform.

(** What an f-string prints for [{v}]. *)
Definition py_str (v : json) : string :=
  match v with
  | JNull => "None"
  | JBool true => "True"
  | JBool false => "False"
  | JInt z => digits z
  | JStr s => s
  | JArr _ | JObj _ => repr_container v
  end.

(** [s.split(sep, 1)]. *)
Definition split_once (sep s : string) : list string :=
  match after_first sep s with
  | Some rest =>
      [substring 0 (String.length s - String.length sep - String.length rest) s; rest]
  | None => [s]
  end.

Definition clean_task_name (task_name : json) : result json :=
  c <- contains " : " task_name ;;
  if c then
    match task_name with
    | JStr s =>
        match nth_error (split_once " : " s) 1 with
        | Some part => Ok (JStr part)
        | None => Raise IndexError
        end
    | _ => Raise AttributeError
    end
  else Ok task_name.

(** *** 2. Read facts *)

(** The body of the [try] block, once [json.load] has returned. *)
Definition parse_facts (raw_facts : json) : result facts_state :=
  c <- contains "ansible_facts" raw_facts ;;
  if c then
    f <- subscript raw_facts "ansible_facts" ;;
    Ok {| facts_data := f; fact_error := None |}
  else
    u <- get raw_facts "unreachable" ;;
    if truthy u then
      m <- get_default raw_facts "msg" (JStr "Unknown Error") ;;
      Ok {| facts_data := JObj []; fact_error := Some ("UNREACHABLE: " ++ py_str m) |}
    else
      f <- get raw_facts "failed" ;;
      if truthy f then
        m <- get_default raw_facts "msg" (JStr "Unknown Error") ;;
        Ok {| facts_data := JObj []; fact_error := Some ("FAILED: " ++ py_str m) |}
      else Ok no_facts.

Definition exists_file (f : file) : bool :=
  match f with Missing => false | _ => true end.

(** Section 2 as a whole: the state it leaves and whether it printed
    "Error loading facts file". *)
Definition read_facts (fs : filesystem) (facts_file : string) : facts_state * bool :=
  if negb (String.eqb facts_file "") && negb (String.eqb facts_file "none")
     && exists_file (fs facts_file)
  then
    match fs facts_file with
    | Content raw_facts =>
        match parse_facts raw_facts with
        | Ok st => (st, false)
        | Raise _ => (no_facts, true)
        end
    | _ => (no_facts, true)
    end
  else (no_facts, false).

(** *** Fallback: facts embedded in the playbook output *)

(** [for host, res in task['hosts'].items()], left by [break] at the first
    [res] holding ['ansible_facts']. *)
Fixpoint scan_hosts (hosts : list (string * json)) (st : facts_state) : result facts_state :=
  match hosts with
  | [] => Ok st
  | (_, res) :: tl =>
      c <- contains "ansible_facts" res ;;
      if c then
        f <- subscript res "ansible_facts" ;;
        Ok {| facts_data := f; fact_error := None |}
      else scan_hosts tl st
  end.

(** The test of line 58; [or] looks at the action only when the name does
    not match. *)
Definition is_gather_facts (task : json) : result bool :=
  t <- subscript task "task" ;;
  name <- subscript t "name" ;;
  if eq_str name "Gathering Facts" then Ok true
  else
    t' <- subscript task "task" ;;
    action <- subscript t' "action" ;;
    Ok (eq_str action "gather_facts").

(** [for task in play['tasks']], left by [if facts_data: break]. *)
Fixpoint scan_tasks (tasks : list json) (st : facts_state) : result facts_state :=
  match tasks with
  | [] => Ok st
  | task :: tl =>
      g <- is_gather_facts task ;;
      st' <- (if g then
                hosts <- subscript task "hosts" ;;
                hs <- items hosts ;;
                scan_hosts hs st
              else Ok st) ;;
      if truthy (facts_data st') then Ok st' else scan_tasks tl st'
  end.

(** [for play in playbook_data['plays']], left by [if facts_data: break]. *)
Fixpoint scan_plays (plays : list json) (st : facts_state) : result facts_state :=
  match plays with
  | [] => Ok st
  | play :: tl =>
      tasks <- subscript play "tasks" ;;
      ts <- iter tasks ;;
      st' <- scan_tasks ts st ;;
      if truthy (facts_data st') then Ok st' else scan_plays tl st'
  end.

(** The condition of line 53. *)
Definition fallback_taken (playbook_data : json) (st : facts_state) : result bool :=
  if negb (truthy (facts_data st)) then contains "plays" playbook_data else Ok false.

(** The body of the fallback. *)
Definition fallback_scan (playbook_data : json) (st : facts_state) : result facts_state :=
  plays <- subscript playbook_data "plays" ;;
  ps <- iter plays ;;
  scan_plays ps st.

Definition fallback (playbook_data : json) (st : facts_state) : result facts_state :=
  taken <- fallback_taken playbook_data st ;;
  if taken then fallback_scan playbook_data st else Ok st.

(** *** 3. Extraction for the report *)

Definition cpu_model_of (processor_list : json) : result json :=
  n <- len processor_list ;;
  if 2 <? n then index processor_list 2
  else if 0 <? n then index processor_list 0
  else Ok (JStr "Unknown").

(** [for m in mounts], building [storage_info]. *)
Fixpoint storage_entries (mounts : list json) : result (list string) :=
  match mounts with
  | [] => Ok []
  | m :: tl =>
      size <- get_default m "size_total" (JInt 0) ;;
      n <- as_number size ;;
      if 1073741824 <? n then
        total <- subscript m "size_total" ;;
        t <- as_number total ;;
        size_gb <- round2_div t (1024 ^ 3) ;;
        mount <- subscript m "mount" ;;
        rest <- storage_entries tl ;;
        Ok ((py_str mount ++ " (" ++ rounded_str size_gb ++ " GB)") :: rest)
      else storage_entries tl
  end.

(** [for iface in facts_data.get('ansible_interfaces', [])], building
    [interfaces]. *)
Fixpoint interface_entries (facts : json) (ifaces : list json) : result (list string) :=
  match ifaces with
  | [] => Ok []
  | iface :: tl =>
      if eq_str iface "lo" then interface_entries facts tl
      else
        let key := "ansible_" ++ py_str iface in
        c <- contains key facts ;;
        if c then
          details <- subscript facts key ;;
          ipv4 <- get_default details "ipv4" (JObj []) ;;
          addr <- get_default ipv4 "address" (JStr "N/A") ;;
          mac <- get_default details "macaddress" (JStr "N/A") ;;
          rest <- interface_entries facts tl ;;
          Ok ((py_str iface ++ ": " ++ py_str addr ++ " (" ++ py_str mac ++ ")") :: rest)
        else interface_entries facts tl
  end.

(** Truth value of [fact_error]: [None] or a string. *)
Definition error_set (e : option string) : bool :=
  match e with
  | Some s => negb (String.eqb s "")
  | None => false
  end.

(** Lines 103 to 105. *)
Definition hostname_of (st : facts_state) : result json :=
  h <- get (facts_data st) "ansible_hostname" ;;
  let hostname_val := if truthy h then h else JStr "N/A" in
  Ok (if error_set (fact_error st) && negb (truthy (facts_data st))
      then JStr ("ERROR: " ++ match fact_error st with Some e => e | None => "None" end)
      else hostname_val).

(** Lines 68 to 116. *)
Definition extract (st : facts_state) : result system_info :=
  let facts := facts_data st in
  mem_total_mb <- get_default facts "ansible_memtotal_mb" (JInt 0) ;;
  mem <- as_number mem_total_mb ;;
  mem_total_gb <- round2_div mem 1024 ;;
  processor_list <- get_default facts "ansible_processor" (JArr []) ;;
  cpu_model <- cpu_model_of processor_list ;;
  cpu_cores <- get_default facts "ansible_processor_vcpus" (JInt 1) ;;
  mounts <- get_default facts "ansible_mounts" (JArr []) ;;
  ms <- iter mounts ;;
  storage_info <- storage_entries ms ;;
  ifaces <- get_default facts "ansible_interfaces" (JArr []) ;;
  ifs <- iter ifaces ;;
  interfaces <- interface_entries facts ifs ;;
  hostname_val <- hostname_of st ;;
  distribution <- get facts "ansible_distribution" ;;
  version <- get facts "ansible_distribution_version" ;;
  architecture <- get_default facts "ansible_architecture" (JStr "N/A") ;;
  kernel <- get_default facts "ansible_kernel" (JStr "N/A") ;;
  Ok {| Hostname := hostname_val;
        OS := py_str distribution ++ " " ++ py_str version;
        Architecture := architecture;
        Kernel := kernel;
        CPU := py_str cpu_model ++ " (" ++ py_str cpu_cores ++ " vCPUs)";
        RAM := rounded_str mem_total_gb ++ " GB";
        Storage := join ", " storage_info;
        Network := join newline interfaces |}.

(** The fact resolver: sections 2 and 3 with the fallback in between. *)
Definition resolve_facts (fs : filesystem) (facts_file : string) (playbook_data : json)
  : result facts_state :=
  fallback playbook_data (fst (read_facts fs facts_file)).

Definition fact_resolver (fs : filesystem) (facts_file : string) (playbook_data : json)
  : result system_info :=
  st <- resolve_facts fs facts_file playbook_data ;;
  extract st.

(** *** Tasks processing *)

(** One turn of [for h, res in hosts_res.items()] on [(status, changed)]. *)
Definition host_step (st : string * string) (res : json) : result (string * string) :=
  let '(status, changed) := st in
  status' <- (failed <- get res "failed" ;;
              if truthy failed then Ok "FAILED"
              else
                unreachable <- get res "unreachable" ;;
                if truthy unreachable then Ok "UNREACHABLE"
                else
                  skipped <- get res "skipped" ;;
                  if truthy skipped && negb (String.eqb status "FAILED")
                  then Ok "SKIPPED"
                  else Ok "OK") ;;
  chg <- get res "changed" ;;
  Ok (status', if truthy chg then "Yes" else changed).

Fixpoint fold_hosts (hosts : list (string * json)) (st : string * string)
  : result (string * string) :=
  match hosts with
  | [] => Ok st
  | (_, res) :: tl =>
      st' <- host_step st res ;;
      fold_hosts tl st'
  end.

(** The body of [for task in play['tasks']]: [None] when the task is
    passed over by [continue]. *)
Definition process_task (t : json) : result (option task_result) :=
  tk <- subscript t "task" ;;
  task_name_raw <- subscript tk "name" ;;
  task_name_clean <- clean_task_name task_name_raw ;;
  hosts_res <- subscript t "hosts" ;;
  hs <- items hosts_res ;;
  '(st, chg) <- fold_hosts hs ("SKIPPED", "No") ;;
  if eq_str task_name_raw "Gathering Facts" then Ok None
  else Ok (Some {| task := task_name_clean; status := st; changed := chg |}).

Fixpoint process_tasks (tasks : list json) : result (list task_result) :=
  match tasks with
  | [] => Ok []
  | t :: tl =>
      r <- process_task t ;;
      rest <- process_tasks tl ;;
      Ok (match r with Some e => e :: rest | None => rest end)
  end.

Fixpoint process_plays (plays : list json) : result (list task_result) :=
  match plays with
  | [] => Ok []
  | play :: tl =>
      tasks <- subscript play "tasks" ;;
      ts <- iter tasks ;;
      here <- process_tasks ts ;;
      rest <- process_plays tl ;;
      Ok (here ++ rest)%list
  end.

(** Lines 119 to 144: [sequential_tasks]. *)
Definition timeline (playbook_data : json) : result (list task_result) :=
  c <- contains "plays" playbook_data ;;
  if c then
    plays <- subscript playbook_data "plays" ;;
    ps <- iter plays ;;
    process_plays ps
  else Ok [].

(** *** 5. The PDF *)

(** [system_info.items()]. *)
Definition info_items (si : system_info) : list (string * json) :=
  [ ("Hostname", Hostname si); ("OS", JStr (OS si));
    ("Architecture", Architecture si); ("Kernel", Kernel si);
    ("CPU", JStr (CPU si)); ("RAM", JStr (RAM si));
    ("Storage", JStr (Storage si)); ("Network", JStr (Network si)) ].

(** [formatted_v]: only a string has [replace]. *)
Definition formatted (k : string) (v : json) : result json :=
  if String.eqb k "Network" then Ok v
  else match v with
       | JStr s => Ok (JStr (replace_newlines s))
       | _ => Raise AttributeError
       end.

(** [pdf.cell] and [pdf.multi_cell] on a text that comes from the
    inputs.  The labels, the titles, the status and changed marks and the
    date are ASCII text of the script's own. *)
Definition draw (txt : string) : result unit :=
  if fpdf_encodes host txt then Ok tt else Raise FPDFUnicodeEncodingException.

Fixpoint render_info (rows : list (string * json)) : result (list (string * json)) :=
  match rows with
  | [] => Ok []
  | (k, v) :: tl =>
      formatted_v <- formatted k v ;;
      'tt <- draw (py_str formatted_v) ;;
      rest <- render_info tl ;;
      Ok ((k, formatted_v) :: rest)
  end.

(** Lines 243 and 244: only a string can be sliced and extended by
    ["..."]; a list raises on the concatenation, a dict on the slice. *)
Definition truncate (task_name : json) : result json :=
  n <- len task_name ;;
  if 90 <? n then
    match task_name with
    | JStr s => Ok (JStr (substring 0 87 s ++ "..."))
    | _ => Raise TypeError
    end
  else Ok task_name.

Fixpoint render_tasks (tasks : list task_result) : result (list (string * string * string)) :=
  match tasks with
  | [] => Ok []
  | t :: tl =>
      task_name <- truncate (task t) ;;
      'tt <- draw ("  " ++ py_str task_name) ;;
      rest <- render_tasks tl ;;
      Ok (("  " ++ py_str task_name, status t, changed t) :: rest)
  end.

(** What reaches FPDF, when FPDF takes every text. *)
Definition render (si : system_info) (tasks : list task_result) : result pdf :=
  info <- render_info (info_items si) ;;
  rows <- render_tasks tasks ;;
  Ok {| pdf_date := now_text; info_rows := info; task_rows := rows |}.

(** *** generate_report and the entry point *)

(** Both artifacts are written by opening a path under [report_dir]; the
    JSON report is opened once the report is assembled, the PDF by
    [pdf.output] once every row is drawn. *)
Definition generate_report (fs : filesystem)
    (playbook_json_file facts_file report_dir : string) (w : world) : world * ending :=
  match fs playbook_json_file with
  | Content playbook_data =>
      let '(st0, complained) := read_facts fs facts_file in
      let w := if complained then print ErrorLoadingFacts w else w in
      match fallback_taken playbook_data st0 with
      | Raise e => (w, Uncaught e)
      | Ok taken =>
          let w := if taken then print UsingFallback w else w in
          match (st <- (if taken then fallback_scan playbook_data st0 else Ok st0) ;;
                 si <- extract st ;;
                 sequential_tasks <- timeline playbook_data ;;
                 Ok (si, sequential_tasks)) with
          | Raise e => (w, Uncaught e)
          | Ok (si, sequential_tasks) =>
              let final_json :=
                {| timestamp := now_iso;
                   report_system_info := si;
                   playbook_execution := sequential_tasks |} in
              let final_json_path := path_join report_dir "final_report.json" in
              if can_write host final_json_path then
                let w := write final_json_path (JsonFile final_json) w in
                let w := print (UnifiedJsonReport final_json_path) w in
                match render si sequential_tasks with
                | Raise e => (w, Uncaught e)
                | Ok doc =>
                    let pdf_file := path_join report_dir "report.pdf" in
                    if can_write host pdf_file then
                      let w := write pdf_file (PdfFile doc) w in
                      (print (PdfReportGenerated pdf_file) w, Done)
                    else (w, Uncaught OSError)
                end
              else (w, Uncaught OSError)
          end
      end
  | _ => (print ErrorLoadingPlaybook w, Done)
  end.

(** The [__main__] block; [argv] is [sys.argv], the script's own name
    first. *)
Definition main (argv : list string) (fs : filesystem) : world * ending :=
  if Z.of_nat (List.length argv) <? 3 then (print Usage start, Exit 1)
  else
    match nth_error argv 1, nth_error argv 2, nth_error argv 3 with
    | Some playbook_json, Some facts_json, Some report_dir =>
        generate_report fs playbook_json facts_json report_dir start
    | _, _, _ => (start, Uncaught IndexError)
    end.

End Script.

(** ** Shapes of the inputs

    The execution trace as section 6 of the specification describes it:
    [plays] is a list of plays, each with a list [tasks]; a task has a
    [task] object with a string [name] and an [action], and a [hosts]
    object that maps each host to an outcome object.  [facts_ok] is what
    is asked of a facts mapping embedded in an outcome. *)

Definition is_some {A : Type} (o : option A) : bool :=
  match o with Some _ => true | None => false end.

Definition or_default (o : option json) (default : json) : json :=
  match o with Some v => v | None => default end.

(** The items of an object, the elements of a list; nothing otherwise. *)
Definition fields (v : json) : list (string * json) :=
  match v with JObj kvs => kvs | _ => [] end.

Definition elements (v : json) : list json :=
  match v with JArr l => l | _ => [] end.

Definition field (k : string) (v : json) : json := or_default (lookup k (fields v)) JNull.

Definition task_name (t : json) : json := field "name" (field "task" t).
Definition task_action (t : json) : json := field "action" (field "task" t).
Definition task_hosts (t : json) : list (string * json) := fields (field "hosts" t).
Definition play_tasks (p : json) : list json := elements (field "tasks" p).

(** All the tasks of a trace, in play and task order. *)
Definition trace_tasks (tr : json) : list json :=
  flat_map play_tasks (elements (field "plays" tr)).

Section Shape.

Variable facts_ok : json -> bool.

Definition wf_outcome (res : json) : bool :=
  match res with
  | JObj kvs =>
      match lookup "ansible_facts" kvs with
      | Some f => facts_ok f
      | None => true
      end
  | _ => false
  end.

Definition wf_task (t : json) : bool :=
  match t with
  | JObj kvs =>
      match lookup "task" kvs, lookup "hosts" kvs with
      | Some (JObj tk), Some (JObj hs) =>
          match lookup "name" tk, lookup "action" tk with
          | Some (JStr _), Some _ => forallb (fun h => wf_outcome (snd h)) hs
          | _, _ => false
          end
      | _, _ => false
      end
  | _ => false
  end.

Definition wf_play (p : json) : bool :=
  match p with
  | JObj kvs =>
      match lookup "tasks" kvs with
      | Some (JArr ts) => forallb wf_task ts
      | _ => false
      end
  | _ => false
  end.

Definition wf_trace (tr : json) : bool :=
  match tr with
  | JObj kvs =>
      match lookup "plays" kvs with
      | None => true
      | Some (JArr ps) => forallb wf_play ps
      | Some _ => false
      end
  | _ => false
  end.

End Shape.

(** A trace of the documented shape, whatever facts it embeds. *)
Definition shaped_trace : json -> bool := wf_trace (fun _ => true).

(** The bootstrap task as line 58 recognises it, and as line 138 does. *)
Definition gathers (t : json) : bool :=
  eq_str (task_name t) "Gathering Facts" || eq_str (task_action t) "gather_facts".

Definition named_gathering_facts (t : json) : bool :=
  eq_str (task_name t) "Gathering Facts".

(** An outcome holding a facts mapping; a task, a play in which the
    fallback finds none. *)
Definition carries_facts (h : string * json) : bool :=
  is_some (lookup "ansible_facts" (fields (snd h))).

Definition silent_task (t : json) : bool :=
  wf_task (fun _ => true) t
  && (negb (gathers t) || forallb (fun h => negb (carries_facts h)) (task_hosts t)).

Definition silent_play (p : json) : bool :=
  wf_play (fun _ => true) p && forallb silent_task (play_tasks p).


(** Following the words of the specification (4.1, step 2): the facts
    mappings embedded in the outcomes of the fact-gathering tasks, in
    play, task and host order, and the first of them. *)
Definition embedded_facts (tr : json) : list json :=
  flat_map (fun t =>
              if gathers t
              then flat_map (fun h => match lookup "ansible_facts" (fields (snd h)) with
                                      | Some f => [f]
                                      | None => []
                                      end) (task_hosts t)
              else [])
           (trace_tasks tr).

Definition first_embedded_facts (tr : json) : option json := hd_error (embedded_facts tr).

(** The fact set the extraction reads without raising: numbers where it
    computes, lists where it iterates, objects where it calls [get].  A
    number stays below [2^53], where [round2_div] is exact. *)
Definition wf_number (v : json) : bool :=
  match v with
  | JInt z => Z.abs z <? 2 ^ 53
  | JBool _ => true
  | _ => false
  end.

Definition wf_mount (m : json) : bool :=
  match m with
  | JObj kvs =>
      match lookup "size_total" kvs with
      | None => true
      | Some (JInt z) =>
          (Z.abs z <? 2 ^ 53) && ((z <=? 1073741824) || is_some (lookup "mount" kvs))
      | Some (JBool _) => true
      | Some _ => false
      end
  | _ => false
  end.

Definition wf_details (d : json) : bool :=
  match d with
  | JObj kvs =>
      match lookup "ipv4" kvs with
      | None => true
      | Some (JObj _) => true
      | Some _ => false
      end
  | _ => false
  end.

Definition wf_iface (repr : json -> string) (facts : list (string * json)) (iface : json)
  : bool :=
  eq_str iface "lo"
  || match lookup ("ansible_" ++ py_str repr iface) facts with
     | None => true
     | Some d => wf_details d
     end.

Definition wf_facts (repr : json -> string) (f : json) : bool :=
  match f with
  | JObj kvs =>
      wf_number (or_default (lookup "ansible_memtotal_mb" kvs) (JInt 0))
      && match lookup "ansible_processor" kvs with
         | None => true
         | Some (JArr _) => true
         | Some _ => false
         end
      && match lookup "ansible_mounts" kvs with
         | None => true
         | Some (JArr ms) => forallb wf_mount ms
         | Some _ => false
         end
      && match lookup "ansible_interfaces" kvs with
         | None => true
         | Some (JArr l) => forallb (wf_iface repr kvs) l
         | Some _ => false
         end
  | _ => false
  end.

(** The size a mount is filtered on, and the entry it contributes to
    [storage_info] when kept. *)
Definition mount_size (m : json) : Z :=
  match or_default (lookup "size_total" (fields m)) (JInt 0) with
  | JInt z => z
  | JBool b => Z.b2z b
  | _ => 0
  end.

Definition mount_kept (m : json) : bool := 1073741824 <? mount_size m.

Definition mount_entry (repr : json -> string) (m : json) : string :=
  py_str repr (field "mount" m) ++ " ("
  ++ rounded_str {| negative := false;
                    hundredths := round_half_even (100 * mount_size m) (1024 ^ 3) |}
  ++ " GB)".

(** Following the words of the specification (a comma-joined list, a
    newline-joined list): the texts of a list, in order, with the
    separator between each two neighbours. *)
Fixpoint separated (sep : string) (l : list string) : string :=
  match l with
  | [] => ""
  | x :: tl =>
      match tl with
      | [] => x
      | _ :: _ => x ++ sep ++ separated sep tl
      end
  end.

(** Test data: a task, a play and a trace written out as JSON. *)
Definition mk_task (name action : string) (hosts : list (string * json)) : json :=
  JObj [("task", JObj [("name", JStr name); ("action", JStr action)]);
        ("hosts", JObj hosts)].

Definition mk_trace (plays : list (list json)) : json :=
  JObj [("plays", JArr (map (fun ts => JObj [("tasks", JArr ts)]) plays))].

Definition mk_mount (path : string) (size_total : Z) : json :=
  JObj [("mount", JStr path); ("size_total", JInt size_total)].

Definition plain_repr (v : json) : string := "<container>".

(** A platform on which every path can be written and FPDF takes every
    text. *)
Definition plain_host : platform :=
  {| can_write := fun _ => true; fpdf_encodes := fun _ => true |}.

(** ** Definitions the statements use *)

(** The entries of a list of tasks: one per task not named "Gathering
    Facts", in order. *)
Definition entries_of (ts : list json) (rs : list task_result) : Prop :=
  Forall2 (fun t r => process_task t = Ok (Some r))
          (filter (fun t => negb (named_gathering_facts t)) ts) rs.

(** The value of the Hostname field. *)
Definition hostname_value (kvs : list (string * json)) (e : option string) : json :=
  if error_set e && negb (truthy (JObj kvs))
  then JStr ("ERROR: " ++ match e with Some m => m | None => "None" end)
  else
    let h := or_default (lookup "ansible_hostname" kvs) JNull in
    if truthy h then h else JStr "N/A".

(** A facts snapshot that reports a failure, and a trace whose second
    play gathers facts on its second host; what follows the adopted
    mapping is not even of the documented shape. *)
Definition failed_snapshot : filesystem :=
  fun path =>
    if (path =? "facts.json")%string
    then Content (JObj [("failed", JBool true); ("msg", JStr "boom")])
    else Missing.

Definition node1_facts : json := JObj [("ansible_hostname", JStr "node1")].

Definition node1_task : json :=
  mk_task "Gathering Facts" "gather_facts"
          [("node0", JObj [("unreachable", JBool true)]);
           ("node1", JObj [("ansible_facts", node1_facts)]);
           ("node2", JNull)].

Definition node1_trace : list (string * json) :=
  [("plays", JArr ([JObj [("tasks", JArr [mk_task "Ping" "ping" [("node1", JObj [])]])]]
                   ++ JObj [("tasks", JArr ([mk_task "Install" "apt" []]
                                            ++ node1_task :: [JNull]))]
                   :: [JInt 3]))].

(** A trace whose first fact-gathering task embeds an empty facts
    mapping and whose second one embeds a hostname. *)
Definition two_gather_trace : json :=
  mk_trace [[mk_task "Gathering Facts" "gather_facts"
                     [("node1", JObj [("ansible_facts", JObj [])])];
             mk_task "Gathering Facts" "gather_facts"
                     [("node2", JObj [("ansible_facts",
                                       JObj [("ansible_hostname", JStr "node2")])])]]].

(** ** Definitions the further properties use *)

(** A line break somewhere in a string. *)
Fixpoint has_newline (s : string) : bool :=
  match s with
  | EmptyString => false
  | String c s' => Ascii.eqb c (ascii_of_nat 10) || has_newline s'
  end.


(** A flag of an outcome: the truth value of [res.get(k)]. *)
Definition flag (k : string) (res : json) : bool := truthy (field k res).

(** The status a host outcome leaves behind, given whether the status
    before it was FAILED. *)
Definition status_after (was_failed : bool) (res : json) : string :=
  if flag "failed" res then "FAILED"
  else if flag "unreachable" res then "UNREACHABLE"
  else if flag "skipped" res && negb was_failed then "SKIPPED"
  else "OK".

(** The name a task is listed under when its raw name is a string. *)
Definition cleaned_name (t : json) : json :=
  match task_name t with
  | JStr s => JStr (match after_first " : " s with Some rest => rest | None => s end)
  | v => v
  end.


(** What the entries of a list of tasks look like. *)
Definition entry_ok (r : task_result) : Prop :=
  In (status r) ["OK"; "SKIPPED"; "FAILED"; "UNREACHABLE"]
  /\ In (changed r) ["Yes"; "No"]
  /\ exists n, task r = JStr n.


(** The key under which the details of an interface are looked up,
    whether the interface is listed, and the line it is listed with. *)
Definition iface_key (repr : json -> string) (iface : json) : string :=
  "ansible_" ++ py_str repr iface.

Definition iface_listed (repr : json -> string) (facts : list (string * json))
    (iface : json) : bool :=
  negb (eq_str iface "lo") && is_some (lookup (iface_key repr iface) facts).

Definition iface_entry (repr : json -> string) (facts : list (string * json))
    (iface : json) : string :=
  let details := or_default (lookup (iface_key repr iface) facts) JNull in
  py_str repr iface ++ ": "
  ++ py_str repr (or_default (lookup "address" (fields (field "ipv4" details)))
                             (JStr "N/A"))
  ++ " ("
  ++ py_str repr (or_default (lookup "macaddress" (fields details)) (JStr "N/A"))
  ++ ")".


(** The facts mappings the outcomes of a list of hosts hold, and those a
    task offers to the fallback. *)
Definition host_facts (hs : list (string * json)) : list json :=
  flat_map (fun h => match lookup "ansible_facts" (fields (snd h)) with
                     | Some f => [f]
                     | None => []
                     end) hs.

Definition task_facts (t : json) : list json :=
  if gathers t then host_facts (task_hosts t) else [].


(** The two files [generate_report] writes under [report_dir]. *)
Definition json_path (report_dir : string) : string := path_join report_dir "final_report.json".
Definition pdf_path (report_dir : string) : string := path_join report_dir "report.pdf".







(** Test data: files for a run with a numeric hostname and for a run on
    one node. *)
Definition numeric_hostname_files : filesystem :=
  fun path =>
    if (path =? "playbook.json")%string then Content (JObj [])
    else Content (JObj [("ansible_facts", JObj [("ansible_hostname", JInt 42)])]).

Definition node1_files : filesystem :=
  fun path =>
    if (path =? "playbook.json")%string
    then Content (mk_trace [[mk_task "Gathering Facts" "gather_facts"
                                     [("node1", JObj [("ansible_facts", node1_facts)])];
                             mk_task "common : Install package" "apt"
                                     [("node1", JObj [("changed", JBool true)])]]])
    else Missing.

(** ** Properties *)

Ltac step_bind H :=
  match type of H with
  | bind ?m _ = Ok _ =>
      destruct m eqn:?; [cbn [bind] in H |- * | cbn [bind] in H; discriminate H]
  end.

(** *** Status reconciliation *)

Lemma get_obj (kvs : list (string * json)) (k : string) :
  get (JObj kvs) k = Ok (or_default (lookup k kvs) JNull).
Proof. reflexivity. Qed.

Lemma clean_task_name_str (s : string) :
  clean_task_name (JStr s)
  = Ok (JStr (match after_first " : " s with Some rest => rest | None => s end)).
Proof.
  unfold clean_task_name, contains, is_substring, split_once.
  destruct (after_first " : " s) as [rest|]; reflexivity.
Qed.

(** A host that did not fail decides the status by itself unless it was
    skipped: whatever was recorded before is overwritten. *)
Lemma host_step_not_failed (st chg : string) (kvs : list (string * json)) :
  truthy (or_default (lookup "failed" kvs) JNull) = false ->
  exists st' chg', host_step (st, chg) (JObj kvs) = Ok (st', chg') /\ st' <> "FAILED".
Proof.
  intros Hf. unfold host_step. rewrite !get_obj. cbn [bind]. rewrite Hf.
  destruct (truthy (or_default (lookup "unreachable" kvs) JNull)); cbn [bind].
  - eexists _, _. split; [reflexivity | discriminate].
  - destruct (truthy (or_default (lookup "skipped" kvs) JNull) && negb (st =? "FAILED")%string);
      cbn [bind]; eexists _, _; (split; [reflexivity | discriminate]).
Qed.

(** Whatever the hosts before it did, the status is not FAILED after a
    last host that did not fail. *)
Lemma last_host_decides (hs : list (string * json)) (h : string)
      (kvs : list (string * json)) :
  truthy (or_default (lookup "failed" kvs) JNull) = false ->
  forall st r, fold_hosts (hs ++ [(h, JObj kvs)]) st = Ok r -> fst r <> "FAILED".
Proof.
  intros Hf. induction hs as [|[h1 r1] tl IH]; intros [s c] r.
  - cbn [app fold_hosts].
    destruct (host_step_not_failed s c kvs Hf) as (s' & c' & E & Hne).
    rewrite E. cbn [bind]. intros H. injection H as <-. exact Hne.
  - cbn [app fold_hosts].
    destruct (host_step (s, c) r1) as [st1|]; cbn [bind]; [apply IH | discriminate].
Qed.

(** C1: a task with a failed host does not always end as FAILED.  With the
    failed host first and an OK, a skipped or an unreachable host after it,
    the fold of lines 130 to 134 ends with the later host's status: OK, OK
    and UNREACHABLE. *)
Theorem failed_status_is_overwritten :
  fold_hosts [("web1", JObj [("failed", JBool true)]); ("web2", JObj [])]
             ("SKIPPED", "No") = Ok ("OK", "No")
  /\ fold_hosts [("web1", JObj [("failed", JBool true)]);
                 ("web2", JObj [("skipped", JBool true)])]
                ("SKIPPED", "No") = Ok ("OK", "No")
  /\ fold_hosts [("web1", JObj [("failed", JBool true)]);
                 ("web2", JObj [("unreachable", JBool true)])]
                ("SKIPPED", "No") = Ok ("UNREACHABLE", "No")
  /\ process_task (mk_task "Install package" "apt"
                     [("web1", JObj [("failed", JBool true)]); ("web2", JObj [])])
     = Ok (Some {| task := JStr "Install package"; status := "OK"; changed := "No" |})
  /\ fold_hosts [("web2", JObj []); ("web1", JObj [("failed", JBool true)])]
                ("SKIPPED", "No") = Ok ("FAILED", "No").
Proof. repeat split; reflexivity. Qed.

(** *** Empty hosts mapping *)

(** C10: a task whose hosts mapping is empty is emitted with status
    SKIPPED and changed No; and it is emitted whenever its name is a
    string other than "Gathering Facts". *)
Theorem empty_hosts_skipped (t : json) (H : subscript t "hosts" = Ok (JObj [])) :
  (forall r, process_task t = Ok (Some r) -> status r = "SKIPPED" /\ changed r = "No")
  /\ (forall tk name,
        subscript t "task" = Ok tk ->
        subscript tk "name" = Ok (JStr name) ->
        name <> "Gathering Facts" ->
        exists c, process_task t
                  = Ok (Some {| task := c; status := "SKIPPED"; changed := "No" |})).
Proof.
  split.
  - intros r. unfold process_task.
    destruct (subscript t "task") as [tk|]; [cbn [bind] | discriminate].
    destruct (subscript tk "name") as [n|]; [cbn [bind] | discriminate].
    destruct (clean_task_name n) as [c|]; [cbn [bind] | discriminate].
    rewrite H. cbn [bind items fold_hosts].
    destruct (eq_str n "Gathering Facts"); [discriminate |].
    intros E. injection E as <-. split; reflexivity.
  - intros tk name Htk Hname Hne. unfold process_task.
    rewrite Htk. cbn [bind]. rewrite Hname. cbn [bind].
    rewrite clean_task_name_str. cbn [bind]. rewrite H. cbn [bind items fold_hosts].
    unfold eq_str. destruct (String.eqb_spec name "Gathering Facts") as [E|_];
      [contradiction |].
    eexists. reflexivity.
Qed.

Lemma empty_hosts_skipped_witness :
  exists c, process_task (mk_task "Reboot" "reboot" [])
            = Ok (Some {| task := c; status := "SKIPPED"; changed := "No" |}).
Proof.
  apply (proj2 (empty_hosts_skipped (mk_task "Reboot" "reboot" []) eq_refl)
               (JObj [("name", JStr "Reboot"); ("action", JStr "reboot")]) "Reboot").
  - reflexivity.
  - reflexivity.
  - discriminate.
Defined.

(** *** The entry point *)

Section EntryPoint.

Variable repr : json -> string.
Variables now_iso now_text : string.
Variable host : platform.

(** C9: with two of the three positional inputs the guard of line 254
    lets the call through; evaluating [sys.argv[3]] raises [IndexError]
    and nothing, the usage message included, is printed. *)
Theorem two_inputs_no_usage (prog playbook_json facts_json : string) (fs : filesystem) :
  main repr now_iso now_text host [prog; playbook_json; facts_json] fs
  = (start, Uncaught IndexError)
  /\ ~ In Usage (stdout (fst (main repr now_iso now_text host
                                [prog; playbook_json; facts_json] fs)))
  /\ main repr now_iso now_text host [prog; playbook_json] fs = (print Usage start, Exit 1)
  /\ main repr now_iso now_text host [prog] fs = (print Usage start, Exit 1).
Proof.
  repeat split. cbn. intros [].
Qed.

(** C6, as amended: when the three positional inputs are given and the
    execution trace is missing or cannot be loaded, the script prints the
    loading error, writes no artifact and returns; the process ends
    normally, with exit status 0. *)
Theorem unloadable_trace_returns
    (prog playbook_json facts_json report_dir : string) (rest : list string)
    (fs : filesystem)
    (H : fs playbook_json = Missing \/ fs playbook_json = Unreadable) :
  let run := main repr now_iso now_text host
                  (prog :: playbook_json :: facts_json :: report_dir :: rest) fs in
  stdout (fst run) = [ErrorLoadingPlaybook]
  /\ written (fst run) = []
  /\ snd run = Done
  /\ exit_status (snd run) = 0.
Proof.
  cbv zeta.
  assert (E : main repr now_iso now_text host
                   (prog :: playbook_json :: facts_json :: report_dir :: rest) fs
              = (print ErrorLoadingPlaybook start, Done)).
  { unfold main.
    replace (Z.of_nat (List.length (prog :: playbook_json :: facts_json :: report_dir :: rest))
             <? 3) with false
      by (symmetry; apply Z.ltb_ge; cbn [List.length]; lia).
    cbn [nth_error]. unfold generate_report.
    destruct H as [-> | ->]; reflexivity. }
  rewrite E. repeat split.
Qed.

End EntryPoint.

Lemma unloadable_trace_returns_witness :
  exit_status (snd (main plain_repr "2026-01-01T00:00:00" "2026-01-01 00:00:00"
                         plain_host
                         ["generate_pdf.py"; "playbook.json"; "none"; "reports"]
                         (fun _ => Missing))) = 0.
Proof.
  apply (unloadable_trace_returns plain_repr "2026-01-01T00:00:00" "2026-01-01 00:00:00"
           plain_host "generate_pdf.py" "playbook.json" "none" "reports" [] (fun _ => Missing)).
  left. reflexivity.
Defined.

(** C6, as stated, fails: with the trace file missing the exit status is
    0, not a non-zero one. *)
Lemma missing_trace_exit_status_zero :
  ~ (exit_status (snd (main plain_repr "2026-01-01T00:00:00" "2026-01-01 00:00:00"
                            plain_host
                            ["generate_pdf.py"; "playbook.json"; "facts.json"; "reports"]
                            (fun _ => Missing))) <> 0).
Proof. intros H. apply H. reflexivity. Qed.

(** *** The timeline *)

Lemma wf_task_inv (P : json -> bool) (t : json) :
  wf_task P t = true ->
  exists kvs tk hs n a,
    t = JObj kvs /\ lookup "task" kvs = Some (JObj tk) /\ lookup "hosts" kvs = Some (JObj hs)
    /\ lookup "name" tk = Some (JStr n) /\ lookup "action" tk = Some a
    /\ forallb (fun h => wf_outcome P (snd h)) hs = true.
Proof.
  destruct t as [| | | | |kvs]; try discriminate. cbn.
  destruct (lookup "task" kvs) as [[| | | | |tk]|] eqn:Etk; try discriminate.
  destruct (lookup "hosts" kvs) as [[| | | | |hs]|] eqn:Ehs; try discriminate.
  destruct (lookup "name" tk) as [[| | |n| |]|] eqn:En; try discriminate.
  destruct (lookup "action" tk) as [a|] eqn:Ea; try discriminate.
  intros H. exists kvs, tk, hs, n, a. repeat split; assumption.
Qed.

Lemma wf_play_inv (P : json -> bool) (p : json) :
  wf_play P p = true ->
  exists kvs ts, p = JObj kvs /\ lookup "tasks" kvs = Some (JArr ts)
                 /\ forallb (wf_task P) ts = true.
Proof.
  destruct p as [| | | | |kvs]; try discriminate. cbn.
  destruct (lookup "tasks" kvs) as [[| | | |ts|]|] eqn:E; try discriminate.
  intros H. exists kvs, ts. repeat split; assumption.
Qed.

Lemma wf_outcome_inv (P : json -> bool) (res : json) :
  wf_outcome P res = true -> exists kvs, res = JObj kvs.
Proof. destruct res; try discriminate. eexists. reflexivity. Qed.

Lemma host_step_obj (st : string * string) (kvs : list (string * json)) :
  exists st', host_step st (JObj kvs) = Ok st'.
Proof.
  destruct st as [s c]. unfold host_step. rewrite !get_obj. cbn [bind].
  destruct (truthy (or_default (lookup "failed" kvs) JNull)); cbn [bind];
    [eexists; reflexivity |].
  destruct (truthy (or_default (lookup "unreachable" kvs) JNull)); cbn [bind];
    [eexists; reflexivity |].
  destruct (truthy (or_default (lookup "skipped" kvs) JNull) && negb (s =? "FAILED")%string);
    cbn [bind]; eexists; reflexivity.
Qed.

Lemma fold_hosts_ok (P : json -> bool) (hs : list (string * json)) :
  forallb (fun h => wf_outcome P (snd h)) hs = true ->
  forall st, exists st', fold_hosts hs st = Ok st'.
Proof.
  induction hs as [|[h res] tl IH]; intros Hwf st.
  - exists st. reflexivity.
  - cbn in Hwf. apply andb_true_iff in Hwf as [Hres Htl].
    apply wf_outcome_inv in Hres as [kvs ->].
    destruct (host_step_obj st kvs) as [st1 E1].
    cbn [fold_hosts]. rewrite E1. cbn [bind]. apply IH. exact Htl.
Qed.

(** What the loop body does with a task of the documented shape. *)
Lemma process_task_shaped (P : json -> bool) (t : json) :
  wf_task P t = true ->
  exists r, process_task t = Ok (if named_gathering_facts t then None else Some r).
Proof.
  intros H. apply wf_task_inv in H as (kvs & tk & hs & n & a & -> & Etk & Ehs & En & Ea & Hhs).
  destruct (fold_hosts_ok P hs Hhs ("SKIPPED", "No")) as [[st chg] Ef].
  unfold process_task, subscript. rewrite Etk. cbn [bind]. rewrite En. cbn [bind].
  rewrite clean_task_name_str. cbn [bind]. rewrite Ehs. cbn [bind items]. rewrite Ef.
  cbn [bind].
  unfold named_gathering_facts, task_name, field. cbn [fields]. rewrite Etk.
  cbn [or_default fields]. rewrite En. cbn [or_default].
  eexists. destruct (eq_str (JStr n) "Gathering Facts"); reflexivity.
Qed.

Lemma process_tasks_shaped (P : json -> bool) (ts : list json) :
  forallb (wf_task P) ts = true ->
  exists rs, process_tasks ts = Ok rs /\ entries_of ts rs.
Proof.
  unfold entries_of. induction ts as [|t tl IH]; intros Hwf.
  - exists []. split; [reflexivity | constructor].
  - cbn in Hwf. apply andb_true_iff in Hwf as [Ht Htl].
    destruct (IH Htl) as (rs & Ers & Hrs).
    destruct (process_task_shaped P t Ht) as [r Er].
    cbn [process_tasks filter]. rewrite Er, Ers.
    destruct (named_gathering_facts t) eqn:En; cbn [bind negb].
    + exists rs. split; [reflexivity | exact Hrs].
    + exists (r :: rs). split; [reflexivity |]. constructor; [|exact Hrs].
      rewrite Er. reflexivity.
Qed.

Lemma play_tasks_obj (kvs : list (string * json)) (ts : list json) :
  lookup "tasks" kvs = Some (JArr ts) -> play_tasks (JObj kvs) = ts.
Proof. intros E. unfold play_tasks, field. cbn [fields]. rewrite E. reflexivity. Qed.

Lemma process_plays_shaped (P : json -> bool) (ps : list json) :
  forallb (wf_play P) ps = true ->
  exists rs, process_plays ps = Ok rs /\ entries_of (flat_map play_tasks ps) rs.
Proof.
  unfold entries_of. induction ps as [|p tl IH]; intros Hwf.
  - exists []. split; [reflexivity | constructor].
  - cbn in Hwf. apply andb_true_iff in Hwf as [Hp Htl].
    destruct (IH Htl) as (rs & Ers & Hrs).
    apply wf_play_inv in Hp as (kvs & ts & -> & Ets & Hts).
    destruct (process_tasks_shaped P ts Hts) as (here & Ehere & Hhere).
    cbn [process_plays flat_map]. unfold subscript. rewrite Ets. cbn [bind iter].
    rewrite Ehere, Ers. cbn [bind].
    exists (here ++ rs)%list. split; [reflexivity |].
    rewrite (play_tasks_obj kvs ts Ets), filter_app.
    apply Forall2_app; assumption.
Qed.

(** C2, as amended: on a trace of the documented shape the timeline has
    one entry for each task whose name is not "Gathering Facts", in trace
    order, and none for a task of that name; the action identifier plays
    no part. *)
Theorem timeline_excludes_by_name_only (tr : json) (H : shaped_trace tr = true) :
  exists rs,
    timeline tr = Ok rs
    /\ Forall2 (fun t r => process_task t = Ok (Some r))
               (filter (fun t => negb (named_gathering_facts t)) (trace_tasks tr)) rs
    /\ (forall t, In t (trace_tasks tr) ->
                  named_gathering_facts t = true -> process_task t = Ok None).
Proof.
  destruct tr as [| | | | |kvs]; try discriminate.
  unfold shaped_trace in H. cbn in H.
  unfold timeline, trace_tasks, field, contains, subscript. cbn [fields].
  destruct (lookup "plays" kvs) as [[| | | |ps|]|] eqn:E; try discriminate; cbn [bind].
  - destruct (process_plays_shaped _ ps H) as (rs & Ers & Hrs).
    cbn [bind iter or_default elements]. rewrite Ers.
    exists rs. split; [reflexivity |]. split; [exact Hrs |].
    intros t Hin Hn.
    assert (Hwf : wf_task (fun _ => true) t = true).
    { apply in_flat_map in Hin as (p & Hp & Ht).
      pose proof (proj1 (forallb_forall _ _) H p Hp) as Hwp.
      apply wf_play_inv in Hwp as (pk & ts & -> & Ets & Hts).
      rewrite (play_tasks_obj pk ts Ets) in Ht.
      exact (proj1 (forallb_forall _ _) Hts t Ht). }
    destruct (process_task_shaped _ t Hwf) as [r Er]. rewrite Hn in Er. exact Er.
  - exists []. split; [reflexivity |]. split; [constructor |]. intros t [].
Qed.

Lemma timeline_excludes_by_name_only_witness :
  exists rs,
    timeline (mk_trace [[mk_task "Gathering Facts" "gather_facts" [];
                         mk_task "role : Install package" "apt" []]]) = Ok rs.
Proof.
  destruct (timeline_excludes_by_name_only
              (mk_trace [[mk_task "Gathering Facts" "gather_facts" [];
                          mk_task "role : Install package" "apt" []]]) eq_refl)
    as (rs & E & _).
  exists rs. exact E.
Defined.

(** C2, as stated, fails: a task whose action is "gather_facts" under
    another name is a bootstrap task in the claim's sense ([gathers]) and
    yet has its entry in the timeline. *)
Lemma gather_action_is_listed :
  gathers (mk_task "Collect facts" "gather_facts" []) = true
  /\ timeline (mk_trace [[mk_task "Collect facts" "gather_facts" []]])
     = Ok [{| task := JStr "Collect facts"; status := "SKIPPED"; changed := "No" |}].
Proof. split; reflexivity. Qed.

(** *** Extraction *)

Lemma float_limit_large : 2 ^ 53 <= float_limit.
Proof. vm_compute. discriminate. Qed.

Lemma round2_div_exact (z k : Z) :
  Z.abs z < 2 ^ 53 -> 0 < k ->
  round2_div z k
  = Ok {| negative := z <? 0; hundredths := round_half_even (100 * Z.abs z) k |}.
Proof.
  intros Hz Hk. unfold round2_div.
  pose proof float_limit_large as HL.
  replace (float_limit * k <=? Z.abs z) with false; [reflexivity |].
  symmetry. apply Z.leb_gt.
  generalize dependent float_limit. intros L HL. nia.
Qed.

Lemma get_default_obj (kvs : list (string * json)) (k : string) (d : json) :
  get_default (JObj kvs) k d = Ok (or_default (lookup k kvs) d).
Proof. reflexivity. Qed.

Lemma mount_not_kept (kvs : list (string * json)) :
  wf_mount (JObj kvs) = true ->
  mount_kept (JObj kvs) = false ->
  forall repr tl, storage_entries repr (JObj kvs :: tl) = storage_entries repr tl.
Proof.
  unfold mount_kept, mount_size. cbn [fields wf_mount]. intros Hwf H repr tl.
  cbn [storage_entries]. rewrite get_default_obj. cbn [bind].
  destruct (lookup "size_total" kvs) as [[|b|z| | |]|]; try discriminate;
    cbn [or_default as_number bind] in *; rewrite H; reflexivity.
Qed.

(** The mounts loop on well-shaped mounts: the entries of the mounts
    whose size exceeds 1073741824, in order. *)
Lemma storage_entries_wf (repr : json -> string) (ms : list json) :
  forallb wf_mount ms = true ->
  storage_entries repr ms = Ok (map (mount_entry repr) (filter mount_kept ms)).
Proof.
  induction ms as [|m tl IH]; intros Hwf; [reflexivity |].
  cbn in Hwf. apply andb_true_iff in Hwf as [Hm Htl]. specialize (IH Htl).
  destruct m as [| | | | |kvs]; try discriminate.
  cbn [filter]. destruct (mount_kept (JObj kvs)) eqn:Hk.
  - unfold mount_kept, mount_size in Hk. cbn [fields] in Hk.
    cbn [wf_mount] in Hm.
    destruct (lookup "size_total" kvs) as [[|b|z| | |]|] eqn:Es;
      cbn [or_default] in Hk; try discriminate.
    + destruct b; discriminate.
    + apply andb_true_iff in Hm as [Hz Hmount]. apply Z.ltb_lt in Hz.
      apply Z.ltb_lt in Hk.
      replace (z <=? 1073741824) with false in Hmount by (symmetry; apply Z.leb_gt; lia).
      cbn [orb] in Hmount.
      destruct (lookup "mount" kvs) as [v|] eqn:Ev; [|discriminate].
      cbn [storage_entries]. rewrite get_default_obj, Es. cbn [or_default as_number bind].
      replace (1073741824 <? z) with true by (symmetry; apply Z.ltb_lt; lia).
      unfold subscript. rewrite Es, Ev. cbn [as_number bind].
      rewrite round2_div_exact by (try assumption; reflexivity).
      cbn [bind]. rewrite IH. cbn [bind map].
      unfold mount_entry, mount_size, field. cbn [fields]. rewrite Es, Ev.
      cbn [or_default].
      replace (z <? 0) with false by (symmetry; apply Z.ltb_ge; lia).
      replace (Z.abs z) with z by lia.
      reflexivity.
  - rewrite (mount_not_kept kvs Hm Hk). exact IH.
Qed.

Lemma interface_entries_wf (repr : json -> string) (kvs : list (string * json))
      (l : list json) :
  forallb (wf_iface repr kvs) l = true ->
  exists es, interface_entries repr (JObj kvs) l = Ok es.
Proof.
  induction l as [|iface tl IH]; intros Hwf.
  - exists []. reflexivity.
  - cbn in Hwf. apply andb_true_iff in Hwf as [Hi Htl].
    destruct (IH Htl) as [es Ees].
    cbn [interface_entries]. unfold wf_iface in Hi.
    destruct (eq_str iface "lo"); [exists es; exact Ees |].
    cbn [orb] in Hi. unfold contains, subscript.
    destruct (lookup ("ansible_" ++ py_str repr iface) kvs) as [d|]; cbn [bind].
    + destruct d as [| | | | |dk]; try discriminate.
      rewrite get_default_obj. cbn [bind]. cbn [wf_details] in Hi.
      destruct (lookup "ipv4" dk) as [[| | | | |ik]|]; try discriminate;
        cbn [or_default]; rewrite !get_default_obj; cbn [bind]; rewrite Ees;
        cbn [bind]; eexists; reflexivity.
    + exists es. exact Ees.
Qed.

Lemma cpu_model_of_list (l : list json) :
  exists model, cpu_model_of (JArr l) = Ok model /\ (l = [] -> model = JStr "Unknown").
Proof.
  unfold cpu_model_of. cbn [len bind index].
  destruct l as [|a [|b [|c tl]]].
  - exists (JStr "Unknown"). split; reflexivity.
  - exists a. split; [reflexivity | discriminate].
  - exists a. split; [reflexivity | discriminate].
  - exists c. split; [|discriminate].
    replace (2 <? Z.of_nat (List.length (a :: b :: c :: tl))) with true
      by (symmetry; apply Z.ltb_lt; cbn [List.length]; lia).
    reflexivity.
Qed.

(** Extraction on a well-shaped fact set returns, and each field is the
    value read, or its default. *)
Lemma extract_wf (repr : json -> string) (kvs : list (string * json)) (e : option string) :
  wf_facts repr (JObj kvs) = true ->
  exists z model es,
    as_number (or_default (lookup "ansible_memtotal_mb" kvs) (JInt 0)) = Ok z
    /\ cpu_model_of (or_default (lookup "ansible_processor" kvs) (JArr [])) = Ok model
    /\ interface_entries repr (JObj kvs)
         (elements (or_default (lookup "ansible_interfaces" kvs) (JArr []))) = Ok es
    /\ extract repr {| facts_data := JObj kvs; fact_error := e |}
       = Ok {| Hostname := hostname_value kvs e;
               OS := py_str repr (or_default (lookup "ansible_distribution" kvs) JNull)
                     ++ " "
                     ++ py_str repr
                          (or_default (lookup "ansible_distribution_version" kvs) JNull);
               Architecture := or_default (lookup "ansible_architecture" kvs) (JStr "N/A");
               Kernel := or_default (lookup "ansible_kernel" kvs) (JStr "N/A");
               CPU := py_str repr model ++ " ("
                      ++ py_str repr
                           (or_default (lookup "ansible_processor_vcpus" kvs) (JInt 1))
                      ++ " vCPUs)";
               RAM := rounded_str {| negative := z <? 0;
                                     hundredths := round_half_even (100 * Z.abs z) 1024 |}
                      ++ " GB";
               Storage := join ", "
                            (map (mount_entry repr)
                                 (filter mount_kept
                                    (elements
                                       (or_default (lookup "ansible_mounts" kvs) (JArr [])))));
               Network := join newline es |}.
Proof.
  intros Hwf. cbn [wf_facts] in Hwf.
  apply andb_true_iff in Hwf as [Hwf Hif].
  apply andb_true_iff in Hwf as [Hwf Hmo].
  apply andb_true_iff in Hwf as [Hmem Hpr].
  assert (Hz : exists z, as_number (or_default (lookup "ansible_memtotal_mb" kvs) (JInt 0))
                         = Ok z /\ Z.abs z < 2 ^ 53).
  { destruct (or_default (lookup "ansible_memtotal_mb" kvs) (JInt 0)) as [|b|z| | |];
      try discriminate.
    - exists (Z.b2z b). split; [reflexivity |]. destruct b; reflexivity.
    - exists z. split; [reflexivity |]. apply Z.ltb_lt. exact Hmem. }
  destruct Hz as (z & Ez & Hzb).
  assert (Hm : exists model,
             cpu_model_of (or_default (lookup "ansible_processor" kvs) (JArr [])) = Ok model).
  { destruct (lookup "ansible_processor" kvs) as [[| | | |l|]|]; try discriminate;
      cbn [or_default].
    - destruct (cpu_model_of_list l) as (m & Em & _). exists m. exact Em.
    - exists (JStr "Unknown"). reflexivity. }
  destruct Hm as (model & Emodel).
  assert (Hms : exists ms, or_default (lookup "ansible_mounts" kvs) (JArr []) = JArr ms
                           /\ forallb wf_mount ms = true).
  { destruct (lookup "ansible_mounts" kvs) as [[| | | |ms|]|]; try discriminate.
    - exists ms. split; [reflexivity | exact Hmo].
    - exists []. split; reflexivity. }
  destruct Hms as (ms & Ems & Hms).
  assert (His : exists l, or_default (lookup "ansible_interfaces" kvs) (JArr []) = JArr l
                          /\ forallb (wf_iface repr kvs) l = true).
  { destruct (lookup "ansible_interfaces" kvs) as [[| | | |l|]|]; try discriminate.
    - exists l. split; [reflexivity | exact Hif].
    - exists []. split; reflexivity. }
  destruct His as (l & El & Hl).
  destruct (interface_entries_wf repr kvs l Hl) as (es & Ees).
  exists z, model, es. rewrite El. cbn [elements].
  repeat split; try assumption.
  unfold extract. cbn [facts_data].
  rewrite !get_default_obj. cbn [bind]. rewrite Ez. cbn [bind].
  rewrite round2_div_exact by (try assumption; reflexivity). cbn [bind].
  rewrite Emodel. cbn [bind]. rewrite Ems. cbn [iter bind elements].
  rewrite (storage_entries_wf repr ms Hms). cbn [bind].
  rewrite El. cbn [iter bind]. rewrite Ees. cbn [bind].
  unfold hostname_of. cbn [facts_data fact_error]. rewrite !get_obj. cbn [bind].
  unfold hostname_value. reflexivity.
Qed.

Lemma join_separated (sep : string) (l : list string) : join sep l = separated sep l.
Proof.
  unfold join. induction l as [|x tl IH]; [reflexivity |].
  destruct tl as [|y tl]; [reflexivity |].
  cbn [String.concat separated] in *. rewrite IH. reflexivity.
Qed.

(** Rounding goes to the nearest integer, and to the even one of the two
    when both are as near. *)
Lemma round_half_even_nearest (n d : Z) :
  0 < d ->
  2 * Z.abs (n - round_half_even n d * d) <= d
  /\ (2 * Z.abs (n - round_half_even n d * d) = d -> Z.even (round_half_even n d) = true).
Proof.
  intros Hd. unfold round_half_even.
  pose proof (Z.div_mod n d ltac:(lia)) as E.
  pose proof (Z.mod_pos_bound n d Hd) as B.
  destruct (2 * (n mod d) <? d) eqn:E1.
  - apply Z.ltb_lt in E1. split; [nia | intros H; nia].
  - apply Z.ltb_ge in E1. destruct (d <? 2 * (n mod d)) eqn:E2.
    + apply Z.ltb_lt in E2. split; [nia | intros H; nia].
    + apply Z.ltb_ge in E2. destruct (Z.even (n / d)) eqn:E3.
      * split; [nia | intros _; exact E3].
      * split; [nia |]. intros _. rewrite Z.even_add, E3. reflexivity.
Qed.

(** C8: the Storage field lists, separated by ", " and in order, the
    mounts whose [size_total] is strictly above 1073741824 = 2^30, each
    with its size in GiB rounded to the nearest hundredth (to the even
    one on a tie); a mount of exactly 1073741824 bytes is left out, one of
    1073741825 bytes is listed as 1.0 GB. *)
Theorem storage_lists_mounts_above_one_gib
    (repr : json -> string) (kvs : list (string * json)) (ms : list json)
    (e : option string)
    (Hwf : wf_facts repr (JObj kvs) = true)
    (Hms : lookup "ansible_mounts" kvs = Some (JArr ms)) :
  (exists si,
      extract repr {| facts_data := JObj kvs; fact_error := e |} = Ok si
      /\ Storage si
         = separated ", " (map (mount_entry repr)
                               (filter (fun m => 1073741824 <? mount_size m) ms)))
  /\ (forall m,
         exists h,
           mount_entry repr m
           = py_str repr (field "mount" m) ++ " ("
             ++ rounded_str {| negative := false; hundredths := h |} ++ " GB)"
           /\ 2 * Z.abs (100 * mount_size m - h * 2 ^ 30) <= 2 ^ 30
           /\ (2 * Z.abs (100 * mount_size m - h * 2 ^ 30) = 2 ^ 30 -> Z.even h = true))
  /\ 1073741824 = 2 ^ 30
  /\ storage_entries repr [mk_mount "/" 1073741824] = Ok []
  /\ storage_entries repr [mk_mount "/" 1073741825] = Ok ["/ (1.0 GB)"]
  /\ storage_entries repr [mk_mount "/" 1073741824; mk_mount "/var" 1073741825;
                           mk_mount "/boot" 1000000000; mk_mount "/home" 53687091200]
     = Ok ["/var (1.0 GB)"; "/home (50.0 GB)"]
  /\ storage_entries repr [mk_mount "/a" 1209033032; mk_mount "/b" 1207959552;
                           mk_mount "/c" 1476395008; mk_mount "/d" 1127428915;
                           mk_mount "/e" 2684354560; mk_mount "/f" 13314398618]
     = Ok ["/a (1.13 GB)"; "/b (1.12 GB)"; "/c (1.38 GB)"; "/d (1.05 GB)";
           "/e (2.5 GB)"; "/f (12.4 GB)"]
  /\ (exists si,
         extract repr
                 {| facts_data :=
                      JObj [("ansible_mounts",
                             JArr [mk_mount "/" 1073741824; mk_mount "/var" 1073741825;
                                   mk_mount "/srv" 1209033032;
                                   mk_mount "/home" 53687091200])];
                    fact_error := e |} = Ok si
         /\ Storage si = "/var (1.0 GB), /srv (1.13 GB), /home (50.0 GB)").
Proof.
  split; [|split; [|repeat split]].
  - destruct (extract_wf repr kvs e Hwf) as (z & model & es & _ & _ & _ & E).
    eexists. split; [exact E |]. cbn [Storage]. rewrite Hms, join_separated. reflexivity.
  - intros m. eexists. split; [reflexivity |].
    change (1024 ^ 3) with (2 ^ 30).
    apply round_half_even_nearest. reflexivity.
  - destruct (extract_wf repr
                [("ansible_mounts",
                  JArr [mk_mount "/" 1073741824; mk_mount "/var" 1073741825;
                        mk_mount "/srv" 1209033032; mk_mount "/home" 53687091200])]
                e eq_refl) as (z & model & es & _ & _ & _ & E).
    eexists. split; [exact E | reflexivity].
Qed.

Lemma storage_lists_mounts_above_one_gib_witness :
  exists si,
    extract plain_repr
            {| facts_data :=
                 JObj [("ansible_mounts",
                        JArr [mk_mount "/" 1073741824; mk_mount "/var" 1073741825;
                              mk_mount "/data" 1209033032])];
               fact_error := None |} = Ok si
    /\ Storage si = "/var (1.0 GB), /data (1.13 GB)".
Proof.
  destruct (storage_lists_mounts_above_one_gib plain_repr
              [("ansible_mounts",
                JArr [mk_mount "/" 1073741824; mk_mount "/var" 1073741825;
                      mk_mount "/data" 1209033032])]
              [mk_mount "/" 1073741824; mk_mount "/var" 1073741825;
               mk_mount "/data" 1209033032]
              None eq_refl eq_refl) as [(si & E & HS) _].
  exists si. split; [exact E | exact HS].
Defined.

(** C3, as amended: on a well-shaped fact set, the empty one included,
    extraction returns a record, and a fact that is absent is replaced by
    the default the code names for it: "N/A" for the hostname (or the
    error text when the fact set is empty and an error marker is set),
    the architecture and the kernel, "Unknown" for the CPU model, 1 for
    the number of vCPUs, 0 for the memory, no entry for the mounts and
    the interfaces. *)
Theorem absent_facts_take_code_defaults
    (repr : json -> string) (kvs : list (string * json)) (e : option string)
    (Hwf : wf_facts repr (JObj kvs) = true) :
  exists si,
    extract repr {| facts_data := JObj kvs; fact_error := e |} = Ok si
    /\ (lookup "ansible_hostname" kvs = None ->
        Hostname si
        = match e with
          | Some m => if negb (m =? "")%string && negb (truthy (JObj kvs))
                      then JStr ("ERROR: " ++ m) else JStr "N/A"
          | None => JStr "N/A"
          end)
    /\ (lookup "ansible_architecture" kvs = None -> Architecture si = JStr "N/A")
    /\ (lookup "ansible_kernel" kvs = None -> Kernel si = JStr "N/A")
    /\ (lookup "ansible_processor" kvs = None ->
        exists cores, CPU si = "Unknown (" ++ cores ++ " vCPUs)")
    /\ (lookup "ansible_processor_vcpus" kvs = None ->
        exists model, CPU si = model ++ " (1 vCPUs)")
    /\ (lookup "ansible_memtotal_mb" kvs = None -> RAM si = "0.0 GB")
    /\ (lookup "ansible_mounts" kvs = None -> Storage si = "")
    /\ (lookup "ansible_interfaces" kvs = None -> Network si = "").
Proof.
  destruct (extract_wf repr kvs e Hwf) as (z & model & es & Ez & Em & Ees & E).
  eexists. split; [exact E |].
  cbn [Hostname Architecture Kernel CPU RAM Storage Network].
  repeat split.
  - intros H. unfold hostname_value. rewrite H. cbn [or_default truthy].
    destruct e as [m|]; cbn [error_set andb]; reflexivity.
  - intros ->. reflexivity.
  - intros ->. reflexivity.
  - intros H. rewrite H in Em. injection Em as <-. eexists. reflexivity.
  - intros ->. eexists. reflexivity.
  - intros H. rewrite H in Ez. injection Ez as <-. reflexivity.
  - intros ->. reflexivity.
  - intros H. rewrite H in Ees. injection Ees as <-. reflexivity.
Qed.

Lemma absent_facts_take_code_defaults_witness :
  exists si,
    extract plain_repr no_facts = Ok si
    /\ Hostname si = JStr "N/A" /\ Architecture si = JStr "N/A" /\ Kernel si = JStr "N/A"
    /\ RAM si = "0.0 GB" /\ Storage si = "" /\ Network si = "".
Proof.
  destruct (absent_facts_take_code_defaults plain_repr [] None eq_refl)
    as (si & E & Hh & Ha & Hk & _ & _ & Hr & Hs & Hn).
  exists si. split; [exact E |].
  repeat split; [apply Hh | apply Ha | apply Hk | apply Hr | apply Hs | apply Hn];
    reflexivity.
Defined.

(** C3, as stated, fails on the empty fact set: the absent number of
    vCPUs is replaced by 1 and the absent distribution and version are
    printed as None, neither of which is among "N/A", "Unknown" and 0. *)
Lemma empty_facts_defaults_outside_named :
  extract plain_repr no_facts
  = Ok {| Hostname := JStr "N/A";
          OS := "None None";
          Architecture := JStr "N/A";
          Kernel := JStr "N/A";
          CPU := "Unknown (1 vCPUs)";
          RAM := "0.0 GB";
          Storage := "";
          Network := "" |}
  /\ get_default (facts_data no_facts) "ansible_processor_vcpus" (JInt 1) = Ok (JInt 1)
  /\ get (facts_data no_facts) "ansible_distribution" = Ok JNull
  /\ ~ In (JInt 1) [JStr "N/A"; JStr "Unknown"; JInt 0]
  /\ ~ In JNull [JStr "N/A"; JStr "Unknown"; JInt 0].
Proof.
  repeat split; intros [H | [H | [H | []]]]; discriminate.
Qed.

(** *** The fallback scan *)

Lemma is_gather_facts_wf (P : json -> bool) (t : json) :
  wf_task P t = true -> is_gather_facts t = Ok (gathers t).
Proof.
  intros H. apply wf_task_inv in H as (kvs & tk & hs & n & a & -> & Etk & Ehs & En & Ea & _).
  unfold is_gather_facts, gathers, task_name, task_action, field, subscript.
  cbn [fields]. rewrite Etk. cbn [bind or_default fields]. rewrite En, Ea.
  cbn [bind or_default].
  destruct (eq_str (JStr n) "Gathering Facts"); reflexivity.
Qed.

Lemma task_hosts_wf (P : json -> bool) (t : json) :
  wf_task P t = true ->
  subscript t "hosts" = Ok (JObj (task_hosts t))
  /\ forallb (fun h => wf_outcome P (snd h)) (task_hosts t) = true.
Proof.
  intros H. apply wf_task_inv in H as (kvs & tk & hs & n & a & -> & Etk & Ehs & En & Ea & Hhs).
  unfold task_hosts, field, subscript. cbn [fields]. rewrite Ehs. cbn [or_default fields].
  split; [reflexivity | exact Hhs].
Qed.

(** Outcomes without a facts mapping leave the state as it is. *)
Lemma scan_hosts_silent (P : json -> bool) (hs : list (string * json)) (st : facts_state) :
  forallb (fun h => wf_outcome P (snd h)) hs = true ->
  forallb (fun h => negb (carries_facts h)) hs = true ->
  scan_hosts hs st = Ok st.
Proof.
  induction hs as [|[h res] tl IH]; intros Hwf Hq; [reflexivity |].
  cbn in Hwf, Hq.
  apply andb_true_iff in Hwf as [Hres Htl]. apply andb_true_iff in Hq as [Hc Hqtl].
  apply wf_outcome_inv in Hres as [kvs ->].
  unfold carries_facts in Hc. cbn [snd fields] in Hc.
  cbn [scan_hosts contains].
  destruct (lookup "ansible_facts" kvs); [discriminate |].
  cbn [bind]. apply IH; assumption.
Qed.

Lemma scan_tasks_silent (ts : list json) (st : facts_state) :
  forallb silent_task ts = true ->
  truthy (facts_data st) = false ->
  scan_tasks ts st = Ok st.
Proof.
  induction ts as [|t tl IH]; intros Hs Hf; [reflexivity |].
  cbn in Hs. apply andb_true_iff in Hs as [Ht Htl].
  unfold silent_task in Ht. apply andb_true_iff in Ht as [Hwf Hq].
  cbn [scan_tasks]. rewrite (is_gather_facts_wf _ t Hwf). cbn [bind].
  destruct (task_hosts_wf _ t Hwf) as [Eh Hh].
  destruct (gathers t); cbn [negb orb] in Hq.
  - rewrite Eh. cbn [bind items]. rewrite (scan_hosts_silent _ _ st Hh Hq).
    cbn [bind]. rewrite Hf. apply IH; assumption.
  - cbn [bind]. rewrite Hf. apply IH; assumption.
Qed.

Lemma scan_plays_silent (ps : list json) (st : facts_state) :
  forallb silent_play ps = true ->
  truthy (facts_data st) = false ->
  scan_plays ps st = Ok st.
Proof.
  induction ps as [|p tl IH]; intros Hs Hf; [reflexivity |].
  cbn in Hs. apply andb_true_iff in Hs as [Hp Htl].
  unfold silent_play in Hp. apply andb_true_iff in Hp as [Hwf Hq].
  apply wf_play_inv in Hwf as (kvs & ts & -> & Ets & _).
  rewrite (play_tasks_obj kvs ts Ets) in Hq.
  cbn [scan_plays]. unfold subscript. rewrite Ets. cbn [bind iter].
  rewrite (scan_tasks_silent ts st Hq Hf). cbn [bind]. rewrite Hf.
  apply IH; assumption.
Qed.


(** The first outcome holding a facts mapping is adopted, and the
    outcomes after it are not looked at. *)
Lemma scan_hosts_adopts (hs1 hs2 : list (string * json)) (h : string)
      (res facts : json) (st : facts_state) :
  forallb (fun h => wf_outcome (fun _ => true) (snd h)) hs1 = true ->
  forallb (fun h => negb (carries_facts h)) hs1 = true ->
  subscript res "ansible_facts" = Ok facts ->
  scan_hosts (hs1 ++ (h, res) :: hs2) st = Ok {| facts_data := facts; fact_error := None |}.
Proof.
  intros Hwf Hq Hres. induction hs1 as [|[h1 r1] tl IH].
  - cbn [app scan_hosts].
    destruct res as [| | | | |kvs]; try discriminate.
    unfold subscript in Hres. cbn [contains].
    destruct (lookup "ansible_facts" kvs) as [f|] eqn:Ef; [|discriminate].
    injection Hres as ->. cbn [bind]. unfold subscript. rewrite Ef. reflexivity.
  - cbn in Hwf, Hq.
    apply andb_true_iff in Hwf as [Hr1 Htl]. apply andb_true_iff in Hq as [Hc Hqtl].
    apply wf_outcome_inv in Hr1 as [kvs ->].
    unfold carries_facts in Hc. cbn [snd fields] in Hc.
    cbn [app scan_hosts contains].
    destruct (lookup "ansible_facts" kvs); [discriminate |].
    cbn [bind]. apply IH; assumption.
Qed.

Lemma scan_tasks_adopts (ts1 ts2 : list json) (gt : json) (hs : list (string * json))
      (facts : json) (st : facts_state) :
  forallb silent_task ts1 = true ->
  truthy (facts_data st) = false ->
  is_gather_facts gt = Ok true ->
  subscript gt "hosts" = Ok (JObj hs) ->
  scan_hosts hs st = Ok {| facts_data := facts; fact_error := None |} ->
  truthy facts = true ->
  scan_tasks (ts1 ++ gt :: ts2) st = Ok {| facts_data := facts; fact_error := None |}.
Proof.
  intros Hs Hf Hg Hh Hscan Ht. induction ts1 as [|t tl IH].
  - cbn [app scan_tasks]. rewrite Hg. cbn [bind]. rewrite Hh. cbn [bind items].
    rewrite Hscan. cbn [bind facts_data]. rewrite Ht. reflexivity.
  - cbn in Hs. apply andb_true_iff in Hs as [Hst Htl].
    rewrite <- app_comm_cons.
    assert (E : scan_tasks [t] st = Ok st)
      by (apply scan_tasks_silent; [cbn; rewrite Hst; reflexivity | exact Hf]).
    cbn [scan_tasks] in E. cbn [scan_tasks].
    destruct (is_gather_facts t) as [g|]; [cbn [bind] in * | discriminate].
    destruct (if g then _ else _) as [st'|]; [cbn [bind] in * | discriminate].
    destruct (truthy (facts_data st')) eqn:Hf'.
    + injection E as ->. rewrite Hf in Hf'. discriminate.
    + injection E as ->. apply IH. exact Htl.
Qed.

Lemma scan_plays_adopts (ps1 ps2 : list json) (play : json) (ts : list json)
      (facts : json) (st : facts_state) :
  forallb silent_play ps1 = true ->
  truthy (facts_data st) = false ->
  subscript play "tasks" = Ok (JArr ts) ->
  scan_tasks ts st = Ok {| facts_data := facts; fact_error := None |} ->
  truthy facts = true ->
  scan_plays (ps1 ++ play :: ps2) st = Ok {| facts_data := facts; fact_error := None |}.
Proof.
  intros Hs Hf Hp Hscan Ht. induction ps1 as [|p tl IH].
  - cbn [app scan_plays]. rewrite Hp. cbn [bind iter]. rewrite Hscan.
    cbn [bind facts_data]. rewrite Ht. reflexivity.
  - cbn in Hs. apply andb_true_iff in Hs as [Hsp Htl].
    rewrite <- app_comm_cons.
    assert (E : scan_plays [p] st = Ok st)
      by (apply scan_plays_silent; [cbn; rewrite Hsp; reflexivity | exact Hf]).
    cbn [scan_plays] in E. cbn [scan_plays].
    destruct (subscript p "tasks") as [tasks|]; [cbn [bind] in * | discriminate].
    destruct (iter tasks) as [l|]; [cbn [bind] in * | discriminate].
    destruct (scan_tasks l st) as [st'|]; [cbn [bind] in * | discriminate].
    destruct (truthy (facts_data st')) eqn:Hf'.
    + injection E as ->. rewrite Hf in Hf'. discriminate.
    + injection E as ->. apply IH. exact Htl.
Qed.


(** C4, as amended: when the facts source gives no facts and the first
    embedded facts mapping the scan meets is not empty, the fallback
    adopts it, clears the error marker and looks no further: the outcomes
    [hs2], the tasks [ts2] and the plays [ps2] after it are arbitrary.
    With [ansible_hostname] = "node1" in it the Hostname is "node1". *)
Theorem fallback_adopts_first_nonempty_facts
    (repr : json -> string) (fs : filesystem) (facts_file : string)
    (tr : list (string * json)) (ps1 ps2 ts1 ts2 : list json) (play gt : json)
    (hs1 hs2 : list (string * json)) (h : string) (res facts : json)
    (Hsrc : truthy (facts_data (fst (read_facts repr fs facts_file))) = false)
    (Hplays : lookup "plays" tr = Some (JArr (ps1 ++ play :: ps2)))
    (Hps1 : forallb silent_play ps1 = true)
    (Htasks : subscript play "tasks" = Ok (JArr (ts1 ++ gt :: ts2)))
    (Hts1 : forallb silent_task ts1 = true)
    (Hgt : is_gather_facts gt = Ok true)
    (Hhosts : subscript gt "hosts" = Ok (JObj (hs1 ++ (h, res) :: hs2)))
    (Hhs1 : forallb (fun h => wf_outcome (fun _ => true) (snd h)) hs1 = true)
    (Hquiet : forallb (fun h => negb (carries_facts h)) hs1 = true)
    (Hres : subscript res "ansible_facts" = Ok facts)
    (Hne : truthy facts = true) :
  resolve_facts repr fs facts_file (JObj tr)
  = Ok {| facts_data := facts; fact_error := None |}
  /\ (wf_facts repr facts = true ->
      get facts "ansible_hostname" = Ok (JStr "node1") ->
      exists si, fact_resolver repr fs facts_file (JObj tr) = Ok si
                 /\ Hostname si = JStr "node1").
Proof.
  assert (E : resolve_facts repr fs facts_file (JObj tr)
              = Ok {| facts_data := facts; fact_error := None |}).
  { unfold resolve_facts, fallback, fallback_taken, fallback_scan, contains, subscript.
    rewrite Hsrc, Hplays. cbn [negb bind iter].
    eapply scan_plays_adopts; try eassumption.
    eapply scan_tasks_adopts; try eassumption.
    apply scan_hosts_adopts; assumption. }
  split; [exact E |].
  intros Hwf Hhost. unfold fact_resolver. rewrite E. cbn [bind].
  destruct facts as [| | | | |fk]; try discriminate.
  destruct (extract_wf repr fk None Hwf) as (z & model & es & _ & _ & _ & Ex).
  eexists. split; [exact Ex |].
  cbn [Hostname]. unfold hostname_value. cbn [error_set andb].
  rewrite get_obj in Hhost. injection Hhost as ->. reflexivity.
Qed.

Lemma fallback_adopts_first_nonempty_facts_witness :
  resolve_facts plain_repr failed_snapshot "facts.json" (JObj node1_trace)
  = Ok {| facts_data := node1_facts; fact_error := None |}
  /\ exists si, fact_resolver plain_repr failed_snapshot "facts.json" (JObj node1_trace) = Ok si
                /\ Hostname si = JStr "node1".
Proof.
  destruct (fallback_adopts_first_nonempty_facts
              plain_repr failed_snapshot "facts.json" node1_trace
              [JObj [("tasks", JArr [mk_task "Ping" "ping" [("node1", JObj [])]])]]
              [JInt 3]
              [mk_task "Install" "apt" []] [JNull]
              (JObj [("tasks", JArr ([mk_task "Install" "apt" []] ++ node1_task :: [JNull]))])
              node1_task
              [("node0", JObj [("unreachable", JBool true)])] [("node2", JNull)]
              "node1" (JObj [("ansible_facts", node1_facts)]) node1_facts
              eq_refl eq_refl eq_refl eq_refl eq_refl eq_refl eq_refl eq_refl eq_refl
              eq_refl eq_refl) as [E H].
  split; [exact E |]. apply H; reflexivity.
Defined.

(** C4, as stated, fails when the first embedded facts mapping is empty:
    the scan goes on and the mapping of a later task is adopted. *)

Lemma empty_first_facts_not_adopted :
  first_embedded_facts two_gather_trace = Some (JObj [])
  /\ fallback two_gather_trace no_facts
     = Ok {| facts_data := JObj [("ansible_hostname", JStr "node2")]; fact_error := None |}
  /\ exists si, fact_resolver plain_repr (fun _ => Missing) "none" two_gather_trace = Ok si
                /\ Hostname si = JStr "node2".
Proof.
  split; [reflexivity |]. split; [reflexivity |].
  eexists. split; reflexivity.
Qed.



(** *** No exception on inputs of the documented shape *)

Section ScanInvariant.

Variable P : json -> bool.

Lemma scan_hosts_wf (hs : list (string * json)) (st : facts_state) :
  forallb (fun h => wf_outcome P (snd h)) hs = true ->
  P (facts_data st) = true ->
  exists st', scan_hosts hs st = Ok st' /\ P (facts_data st') = true.
Proof.
  induction hs as [|[h res] tl IH]; intros Hwf Hst.
  - exists st. split; [reflexivity | exact Hst].
  - cbn in Hwf. apply andb_true_iff in Hwf as [Hres Htl].
    destruct res as [| | | | |kvs]; try discriminate.
    cbn [wf_outcome] in Hres. cbn [scan_hosts contains]. unfold subscript.
    destruct (lookup "ansible_facts" kvs) as [f|]; cbn [bind].
    + eexists. split; [reflexivity | exact Hres].
    + apply IH; assumption.
Qed.

Lemma scan_tasks_wf (ts : list json) :
  forallb (wf_task P) ts = true ->
  forall st, P (facts_data st) = true ->
  exists st', scan_tasks ts st = Ok st' /\ P (facts_data st') = true.
Proof.
  induction ts as [|t tl IH]; intros Hwf st Hst.
  - exists st. split; [reflexivity | exact Hst].
  - cbn in Hwf. apply andb_true_iff in Hwf as [Ht Htl].
    cbn [scan_tasks]. rewrite (is_gather_facts_wf P t Ht). cbn [bind].
    destruct (task_hosts_wf P t Ht) as [Eh Hh].
    assert (Hstep : exists st1,
               (if gathers t
                then hosts <- subscript t "hosts" ;; hs <- items hosts ;; scan_hosts hs st
                else Ok st) = Ok st1 /\ P (facts_data st1) = true).
    { destruct (gathers t).
      - rewrite Eh. cbn [bind items]. apply scan_hosts_wf; assumption.
      - exists st. split; [reflexivity | exact Hst]. }
    destruct Hstep as (st1 & E1 & H1). rewrite E1. cbn [bind].
    destruct (truthy (facts_data st1)).
    + exists st1. split; [reflexivity | exact H1].
    + apply IH; assumption.
Qed.

Lemma scan_plays_wf (ps : list json) :
  forallb (wf_play P) ps = true ->
  forall st, P (facts_data st) = true ->
  exists st', scan_plays ps st = Ok st' /\ P (facts_data st') = true.
Proof.
  induction ps as [|p tl IH]; intros Hwf st Hst.
  - exists st. split; [reflexivity | exact Hst].
  - cbn in Hwf. apply andb_true_iff in Hwf as [Hp Htl].
    apply wf_play_inv in Hp as (kvs & ts & -> & Ets & Hts).
    cbn [scan_plays]. unfold subscript. rewrite Ets. cbn [bind iter].
    destruct (scan_tasks_wf ts Hts st Hst) as (st1 & E1 & H1).
    rewrite E1. cbn [bind].
    destruct (truthy (facts_data st1)).
    + exists st1. split; [reflexivity | exact H1].
    + apply IH; assumption.
Qed.

Lemma fallback_wf (tr : json) (st : facts_state) :
  wf_trace P tr = true ->
  P (facts_data st) = true ->
  exists st', fallback tr st = Ok st' /\ P (facts_data st') = true.
Proof.
  intros Hwf Hst. destruct tr as [| | | | |kvs]; try discriminate.
  cbn [wf_trace] in Hwf.
  unfold fallback, fallback_taken, fallback_scan, contains, subscript.
  destruct (truthy (facts_data st)); cbn [negb bind].
  - exists st. split; [reflexivity | exact Hst].
  - destruct (lookup "plays" kvs) as [[| | | |ps|]|]; try discriminate; cbn [bind iter].
    + apply scan_plays_wf; assumption.
    + exists st. split; [reflexivity | exact Hst].
Qed.

End ScanInvariant.

(** C7, as amended: when the trace has the documented shape and the fact
    set read from the snapshot and the fact sets embedded in the trace
    are well-shaped, the fact resolver raises no exception and returns a
    record. *)
Theorem resolver_returns_on_shaped_inputs
    (repr : json -> string) (fs : filesystem) (facts_file : string) (tr : json)
    (Hsnapshot : wf_facts repr (facts_data (fst (read_facts repr fs facts_file))) = true)
    (Htrace : wf_trace (wf_facts repr) tr = true) :
  exists si, fact_resolver repr fs facts_file tr = Ok si.
Proof.
  unfold fact_resolver, resolve_facts.
  destruct (fallback_wf (wf_facts repr) tr _ Htrace Hsnapshot) as ([f e] & E & Hf).
  rewrite E. cbn [bind]. cbn [facts_data] in Hf.
  destruct f as [| | | | |kvs]; try discriminate.
  destruct (extract_wf repr kvs e Hf) as (z & model & es & _ & _ & _ & Ex).
  eexists. exact Ex.
Qed.

Lemma resolver_returns_on_shaped_inputs_witness :
  exists si,
    fact_resolver plain_repr failed_snapshot "facts.json"
                  (mk_trace [[mk_task "Gathering Facts" "gather_facts"
                                      [("node1", JObj [("ansible_facts", node1_facts)])];
                              mk_task "Install" "apt" [("node1", JObj [])]]]) = Ok si.
Proof.
  apply (resolver_returns_on_shaped_inputs plain_repr failed_snapshot "facts.json").
  - reflexivity.
  - reflexivity.
Defined.

(** C7, as stated, fails: a play without [tasks], a trace that is [null],
    a memory size that is a string and a large mount without a [mount]
    key each make the resolver raise. *)
Lemma resolver_raises_on_other_shapes :
  fact_resolver plain_repr (fun _ => Missing) "none" (JObj [("plays", JArr [JObj []])])
  = Raise KeyError
  /\ fact_resolver plain_repr (fun _ => Missing) "none" JNull = Raise TypeError
  /\ fact_resolver plain_repr
       (fun _ => Content (JObj [("ansible_facts",
                                 JObj [("ansible_memtotal_mb", JStr "2048")])]))
       "facts.json" (JObj [])
     = Raise TypeError
  /\ fact_resolver plain_repr
       (fun _ => Content (JObj [("ansible_facts",
                                 JObj [("ansible_mounts",
                                        JArr [JObj [("size_total", JInt 2147483648)]])])]))
       "facts.json" (JObj [])
     = Raise KeyError.
Proof. repeat split. Qed.

(** ** Further properties *)

(** *** Strings *)

Lemma substring_all (s : string) (m : nat) :
  (String.length s <= m)%nat -> substring 0 m s = s.
Proof.
  revert m. induction s as [|c s IH]; intros [|m] H; cbn in *; try reflexivity; try lia.
  rewrite IH by lia. reflexivity.
Qed.

Lemma prefix_split (p s : string) (m : nat) :
  prefix p s = true -> (String.length s <= m)%nat ->
  s = p ++ substring (String.length p) m s.
Proof.
  revert s. induction p as [|a p IH]; intros s H Hm.
  - cbn. symmetry. apply substring_all. exact Hm.
  - destruct s as [|b s]; [discriminate |]. cbn in H.
    destruct (ascii_dec a b) as [->|]; [|discriminate].
    cbn in Hm. cbn. rewrite <- IH; [reflexivity | exact H | lia].
Qed.

Lemma prefix_app (p r : string) : prefix p (p ++ r) = true.
Proof.
  induction p as [|a p IH]; cbn; [destruct r; reflexivity |].
  destruct (ascii_dec a a) as [_|C]; [exact IH | contradiction].
Qed.

Lemma after_first_eq (sep s : string) :
  after_first sep s
  = if prefix sep s
    then Some (substring (String.length sep) (String.length s) s)
    else match s with
         | EmptyString => None
         | String _ s' => after_first sep s'
         end.
Proof. destruct s; reflexivity. Qed.

(** [after_first] cuts at the first occurrence of the separator. *)
Lemma after_first_split (sep s rest : string) :
  after_first sep s = Some rest ->
  exists pre,
    s = pre ++ sep ++ rest
    /\ forall pre' rest', s = pre' ++ sep ++ rest' ->
                          (String.length pre <= String.length pre')%nat.
Proof.
  revert rest. induction s as [|c s IH]; intros rest H; rewrite after_first_eq in H.
  - destruct (prefix sep "") eqn:Hp; [|discriminate].
    injection H as <-. exists "". split.
    + exact (prefix_split sep "" 0 Hp (le_n _)).
    + intros. cbn. lia.
  - destruct (prefix sep (String c s)) eqn:Hp.
    + injection H as <-. exists "". split.
      * exact (prefix_split sep (String c s) (String.length (String c s)) Hp (le_n _)).
      * intros. cbn. lia.
    + destruct (IH rest H) as (pre & E & Hfirst).
      exists (String c pre). split; [cbn; rewrite <- E; reflexivity |].
      intros [|c' pre'] rest' E'.
      * cbn in E'. rewrite E', prefix_app in Hp. discriminate.
      * cbn in E'. injection E' as _ E'. cbn. apply le_n_S. exact (Hfirst pre' rest' E').
Qed.

Lemma after_first_none (sep s : string) :
  after_first sep s = None -> forall pre rest, s <> pre ++ sep ++ rest.
Proof.
  induction s as [|c s IH]; intros H pre rest E; rewrite after_first_eq in H.
  - destruct (prefix sep "") eqn:Hp; [discriminate |].
    destruct pre; [|discriminate]. cbn in E. rewrite E, prefix_app in Hp. discriminate.
  - destruct (prefix sep (String c s)) eqn:Hp; [discriminate |].
    destruct pre as [|c' pre].
    + cbn in E. rewrite E, prefix_app in Hp. discriminate.
    + cbn in E. injection E as _ E. exact (IH H pre rest E).
Qed.

Lemma length_append (a b : string) :
  String.length (a ++ b) = (String.length a + String.length b)%nat.
Proof. induction a as [|c a IH]; cbn; [reflexivity | rewrite IH; reflexivity]. Qed.

Lemma length_substring_front (n : nat) (s : string) :
  (n <= String.length s)%nat -> String.length (substring 0 n s) = n.
Proof.
  revert s. induction n as [|n IH]; intros s H.
  - destruct s; reflexivity.
  - destruct s as [|c s]; cbn in *; [lia |]. rewrite IH by lia. reflexivity.
Qed.

(** *** Name cleaning *)

(** X1: on a task name that is a string, [clean_task_name] returns the
    text after the first " : "; a name without the separator is returned
    unchanged. *)
Theorem clean_task_name_cuts_at_first_separator (s : string) :
  exists c,
    clean_task_name (JStr s) = Ok (JStr c)
    /\ ((forall pre rest, s <> pre ++ " : " ++ rest) -> c = s)
    /\ (forall pre rest,
           s = pre ++ " : " ++ rest ->
           exists pre0, s = pre0 ++ " : " ++ c
                        /\ (String.length pre0 <= String.length pre)%nat).
Proof.
  rewrite clean_task_name_str.
  destruct (after_first " : " s) as [r|] eqn:E.
  - destruct (after_first_split " : " s r E) as (pre0 & E0 & Hfirst).
    exists r. split; [reflexivity |]. split.
    + intros H. exfalso. exact (H pre0 r E0).
    + intros pre rest Es. exists pre0. split; [exact E0 | exact (Hfirst pre rest Es)].
  - exists s. split; [reflexivity |]. split; [reflexivity |].
    intros pre rest Es. exfalso. exact (after_first_none " : " s E pre rest Es).
Qed.

(** *** Rows of the PDF *)

(** X2: a task name that is a string reaches the task table with at most
    90 characters: a name of up to 90 characters is kept, a longer one is
    cut to its first 87 characters followed by "...". *)
Theorem truncate_bounds_task_name (s : string) :
  exists t,
    truncate (JStr s) = Ok (JStr t)
    /\ (String.length t <= 90)%nat
    /\ ((String.length s <= 90)%nat -> t = s)
    /\ ((90 < String.length s)%nat ->
        t = substring 0 87 s ++ "..." /\ String.length t = 90%nat).
Proof.
  unfold truncate. cbn [len bind].
  destruct (90 <? Z.of_nat (String.length s)) eqn:E.
  - apply Z.ltb_lt in E.
    assert (L : String.length (substring 0 87 s ++ "...") = 90%nat).
    { rewrite length_append, length_substring_front by lia. reflexivity. }
    eexists. split; [reflexivity |]. split; [lia |]. split; [lia |].
    intros _. split; [reflexivity | exact L].
  - apply Z.ltb_ge in E.
    exists s. split; [reflexivity |]. split; [lia |]. split; [reflexivity | lia].
Qed.


Lemma replace_newlines_id (s : string) : has_newline s = false -> replace_newlines s = s.
Proof.
  induction s as [|c s IH]; [reflexivity |]. cbn [has_newline replace_newlines].
  destruct (Ascii.eqb c (ascii_of_nat 10)); [discriminate |].
  cbn [orb]. intros H. rewrite (IH H). reflexivity.
Qed.

Lemma replace_newlines_app (a b : string) :
  replace_newlines (a ++ b) = replace_newlines a ++ replace_newlines b.
Proof.
  induction a as [|c a IH]; [reflexivity |]. cbn [append replace_newlines].
  rewrite IH. destruct (Ascii.eqb c (ascii_of_nat 10)); reflexivity.
Qed.

Lemma replace_newlines_lines (lines : list string) :
  Forall (fun l => has_newline l = false) lines ->
  replace_newlines (separated newline lines) = separated ", " lines.
Proof.
  induction 1 as [|x tl Hx Htl IH]; [reflexivity |].
  destruct tl as [|y tl]; cbn [separated] in *.
  - apply replace_newlines_id. exact Hx.
  - rewrite !replace_newlines_app, IH, (replace_newlines_id x Hx). reflexivity.
Qed.

(** X3: a value made of lines, on a row other than Network, is laid out
    as these lines separated by ", "; the Network value is passed as it
    is; a value that is not a string makes a row other than Network
    raise. *)
Theorem formatted_collapses_line_breaks
    (k : string) (lines : list string)
    (Hk : k <> "Network")
    (Hlines : Forall (fun l => has_newline l = false) lines) :
  formatted k (JStr (separated newline lines)) = Ok (JStr (separated ", " lines))
  /\ formatted "Network" (JStr (separated newline lines))
     = Ok (JStr (separated newline lines))
  /\ (forall v, (forall t, v <> JStr t) -> formatted k v = Raise AttributeError)
  /\ formatted "Storage" (JStr (String "a" (String "010" (String "b" ""))))
     = Ok (JStr "a, b").
Proof.
  unfold formatted.
  destruct (String.eqb_spec k "Network") as [C|_]; [contradiction |].
  split; [rewrite (replace_newlines_lines lines Hlines); reflexivity |].
  split; [reflexivity |]. split; [|reflexivity].
  intros v Hv. destruct v as [| | |t| |]; try reflexivity. exfalso. exact (Hv t eq_refl).
Qed.

Lemma formatted_collapses_line_breaks_witness :
  formatted "Hostname" (JStr (separated newline ["node1"; "node2"; "node3"]))
  = Ok (JStr "node1, node2, node3").
Proof.
  apply (formatted_collapses_line_breaks "Hostname" ["node1"; "node2"; "node3"]).
  - discriminate.
  - repeat constructor.
Defined.

(** *** The fold over the hosts of a task *)

Lemma host_step_spec (s c : string) (kvs : list (string * json)) :
  host_step (s, c) (JObj kvs)
  = Ok (status_after (s =? "FAILED")%string (JObj kvs),
        if flag "changed" (JObj kvs) then "Yes" else c).
Proof.
  unfold host_step, status_after, flag, field. cbn [fields]. rewrite !get_obj.
  cbn [bind].
  destruct (truthy (or_default (lookup "failed" kvs) JNull)); cbn [bind]; [reflexivity |].
  destruct (truthy (or_default (lookup "unreachable" kvs) JNull)); cbn [bind];
    [reflexivity |].
  destruct (truthy (or_default (lookup "skipped" kvs) JNull) && negb (s =? "FAILED")%string);
    reflexivity.
Qed.

Lemma status_after_failed (b : bool) (res : json) :
  (status_after b res =? "FAILED")%string = flag "failed" res.
Proof.
  unfold status_after. destruct (flag "failed" res); [reflexivity |].
  destruct (flag "unreachable" res); [reflexivity |].
  destruct (flag "skipped" res && negb b); reflexivity.
Qed.

Lemma fold_hosts_snoc (hs : list (string * json)) (x : string * json) (st : string * string) :
  fold_hosts (hs ++ [x]) st = (st' <- fold_hosts hs st ;; host_step st' (snd x)).
Proof.
  revert st. induction hs as [|[h r] tl IH]; intros st.
  - destruct x as [h r]. cbn [app fold_hosts bind snd].
    destruct (host_step st r); reflexivity.
  - cbn [app fold_hosts]. destruct (host_step st r) as [st1|]; cbn [bind]; [apply IH |].
    reflexivity.
Qed.

(** X4: when every outcome is an object, the status of a task with at
    least one host is FAILED exactly when the host iterated last failed. *)
Theorem status_failed_iff_last_host_failed
    (hs : list (string * json)) (h : string) (res : json) (st : string * string)
    (Hobj : forallb (fun x => wf_outcome (fun _ => true) (snd x)) (hs ++ [(h, res)]) = true) :
  exists s c,
    fold_hosts (hs ++ [(h, res)]) st = Ok (s, c)
    /\ (s = "FAILED" <-> flag "failed" res = true).
Proof.
  rewrite forallb_app in Hobj. apply andb_true_iff in Hobj as [Hhs Hres].
  cbn in Hres. rewrite andb_true_r in Hres. apply wf_outcome_inv in Hres as [kvs ->].
  destruct (fold_hosts_ok _ hs Hhs st) as [[s1 c1] E1].
  rewrite fold_hosts_snoc, E1. cbn [bind snd]. rewrite host_step_spec.
  eexists _, _. split; [reflexivity |].
  rewrite <- (status_after_failed (s1 =? "FAILED")%string (JObj kvs)).
  split; [intros ->; reflexivity | apply String.eqb_eq].
Qed.

Lemma status_failed_iff_last_host_failed_witness :
  exists s c,
    fold_hosts ([("web1", JObj [("failed", JBool true)])] ++ [("web2", JObj [])])
               ("SKIPPED", "No") = Ok (s, c)
    /\ (s = "FAILED" <-> flag "failed" (JObj []) = true).
Proof.
  apply (status_failed_iff_last_host_failed
           [("web1", JObj [("failed", JBool true)])] "web2" (JObj []) ("SKIPPED", "No")).
  reflexivity.
Defined.

(** X5: when every outcome is an object, the status of a task with two
    hosts or more depends on the last two only: it is what the last host
    leaves, given whether the host before it failed. *)
Theorem status_decided_by_last_two_hosts
    (hs : list (string * json)) (h1 h2 : string) (r1 r2 : json) (st : string * string)
    (Hobj : forallb (fun x => wf_outcome (fun _ => true) (snd x))
                    (hs ++ [(h1, r1); (h2, r2)]) = true) :
  exists c,
    fold_hosts (hs ++ [(h1, r1); (h2, r2)]) st
    = Ok (status_after (flag "failed" r1) r2, c).
Proof.
  rewrite forallb_app in Hobj. apply andb_true_iff in Hobj as [Hhs H12].
  cbn in H12. rewrite andb_true_r in H12. apply andb_true_iff in H12 as [H1 H2].
  apply wf_outcome_inv in H1 as [k1 ->]. apply wf_outcome_inv in H2 as [k2 ->].
  destruct (fold_hosts_ok _ hs Hhs st) as [[s0 c0] E0].
  change (hs ++ [(h1, JObj k1); (h2, JObj k2)])%list
    with (hs ++ ([(h1, JObj k1)] ++ [(h2, JObj k2)]))%list.
  rewrite app_assoc, !fold_hosts_snoc, E0. cbn [bind snd].
  rewrite host_step_spec. cbn [bind]. rewrite host_step_spec.
  rewrite status_after_failed. eexists. reflexivity.
Qed.

Lemma status_decided_by_last_two_hosts_witness :
  exists c,
    fold_hosts ([("a", JObj [("failed", JBool true)])]
                ++ [("b", JObj [("unreachable", JBool true)]);
                    ("c", JObj [("skipped", JBool true)])])
               ("SKIPPED", "No")
    = Ok (status_after (flag "failed" (JObj [("unreachable", JBool true)]))
                       (JObj [("skipped", JBool true)]), c).
Proof.
  apply (status_decided_by_last_two_hosts
           [("a", JObj [("failed", JBool true)])] "b" "c"
           (JObj [("unreachable", JBool true)]) (JObj [("skipped", JBool true)])
           ("SKIPPED", "No")).
  reflexivity.
Defined.

Lemma existsb_permutation {A : Type} (f : A -> bool) (l l' : list A) :
  Permutation l l' -> existsb f l = existsb f l'.
Proof.
  intros HP. destruct (existsb f l) eqn:E; symmetry.
  - apply existsb_exists in E as (x & Hin & Hx). apply existsb_exists.
    exists x. split; [exact (Permutation_in x HP Hin) | exact Hx].
  - destruct (existsb f l') eqn:E'; [|reflexivity].
    apply existsb_exists in E' as (x & Hin & Hx).
    assert (C : existsb f l = true).
    { apply existsb_exists. exists x.
      split; [exact (Permutation_in x (Permutation_sym HP) Hin) | exact Hx]. }
    rewrite C in E. discriminate.
Qed.

Lemma fold_hosts_changed (hs : list (string * json)) :
  forallb (fun x => wf_outcome (fun _ => true) (snd x)) hs = true ->
  forall s c, exists s',
    fold_hosts hs (s, c)
    = Ok (s', if existsb (fun x => flag "changed" (snd x)) hs then "Yes" else c).
Proof.
  induction hs as [|[h r] tl IH]; intros Hobj s c.
  - exists s. reflexivity.
  - cbn in Hobj. apply andb_true_iff in Hobj as [Hr Htl].
    apply wf_outcome_inv in Hr as [kvs ->].
    cbn [fold_hosts existsb snd]. rewrite host_step_spec. cbn [bind].
    destruct (IH Htl (status_after (s =? "FAILED")%string (JObj kvs))
                 (if flag "changed" (JObj kvs) then "Yes" else c)) as [s' E].
    exists s'. rewrite E.
    destruct (flag "changed" (JObj kvs)); cbn [orb]; [|reflexivity].
    destruct (existsb _ tl); reflexivity.
Qed.

(** X6: when every outcome is an object, Changed is "Yes" exactly when
    some host reports a change, whatever the order of the hosts. *)
Theorem changed_is_or_over_hosts
    (hs hs' : list (string * json))
    (Hobj : forallb (fun x => wf_outcome (fun _ => true) (snd x)) hs = true)
    (Hperm : Permutation hs hs') :
  exists s s',
    fold_hosts hs ("SKIPPED", "No")
    = Ok (s, if existsb (fun x => flag "changed" (snd x)) hs then "Yes" else "No")
    /\ fold_hosts hs' ("SKIPPED", "No")
       = Ok (s', if existsb (fun x => flag "changed" (snd x)) hs then "Yes" else "No").
Proof.
  assert (Hobj' : forallb (fun x => wf_outcome (fun _ => true) (snd x)) hs' = true).
  { apply forallb_forall. intros x Hin.
    exact (proj1 (forallb_forall _ _) Hobj x (Permutation_in x (Permutation_sym Hperm) Hin)). }
  destruct (fold_hosts_changed hs Hobj "SKIPPED" "No") as [s E].
  destruct (fold_hosts_changed hs' Hobj' "SKIPPED" "No") as [s' E'].
  exists s, s'. split; [exact E |].
  rewrite E', (existsb_permutation _ hs hs' Hperm). reflexivity.
Qed.

Lemma changed_is_or_over_hosts_witness :
  exists s s',
    fold_hosts [("a", JObj [("changed", JBool true)]); ("b", JObj [])] ("SKIPPED", "No")
    = Ok (s, "Yes")
    /\ fold_hosts [("b", JObj []); ("a", JObj [("changed", JBool true)])] ("SKIPPED", "No")
       = Ok (s', "Yes").
Proof.
  apply (changed_is_or_over_hosts
           [("a", JObj [("changed", JBool true)]); ("b", JObj [])]
           [("b", JObj []); ("a", JObj [("changed", JBool true)])]).
  - reflexivity.
  - apply perm_swap.
Defined.

(** *** The entries of the timeline *)

Lemma status_after_values (b : bool) (res : json) :
  In (status_after b res) ["OK"; "SKIPPED"; "FAILED"; "UNREACHABLE"].
Proof.
  unfold status_after.
  destruct (flag "failed" res); [cbn; tauto |].
  destruct (flag "unreachable" res); [cbn; tauto |].
  destruct (flag "skipped" res && negb b); cbn; tauto.
Qed.

Lemma fold_hosts_values (hs : list (string * json)) :
  forallb (fun x => wf_outcome (fun _ => true) (snd x)) hs = true ->
  forall s c,
    In s ["OK"; "SKIPPED"; "FAILED"; "UNREACHABLE"] -> In c ["Yes"; "No"] ->
    exists s' c',
      fold_hosts hs (s, c) = Ok (s', c')
      /\ In s' ["OK"; "SKIPPED"; "FAILED"; "UNREACHABLE"] /\ In c' ["Yes"; "No"].
Proof.
  induction hs as [|[h r] tl IH]; intros Hobj s c Hs Hc.
  - exists s, c. repeat split; assumption.
  - cbn in Hobj. apply andb_true_iff in Hobj as [Hr Htl].
    apply wf_outcome_inv in Hr as [kvs ->].
    cbn [fold_hosts]. rewrite host_step_spec. cbn [bind].
    apply (IH Htl); [apply status_after_values |].
    destruct (flag "changed" (JObj kvs)); [cbn; tauto | exact Hc].
Qed.

(** The entry of a task of the documented shape, field by field. *)
Lemma process_task_entry (P : json -> bool) (t : json) :
  wf_task P t = true ->
  exists s c,
    process_task t
    = Ok (if named_gathering_facts t then None
          else Some {| task := cleaned_name t; status := s; changed := c |})
    /\ In s ["OK"; "SKIPPED"; "FAILED"; "UNREACHABLE"] /\ In c ["Yes"; "No"]
    /\ exists n, cleaned_name t = JStr n.
Proof.
  intros H. apply wf_task_inv in H as (kvs & tk & hs & n & a & -> & Etk & Ehs & En & Ea & Hhs).
  assert (Hobj : forallb (fun x => wf_outcome (fun _ => true) (snd x)) hs = true).
  { apply forallb_forall. intros x Hin.
    pose proof (proj1 (forallb_forall _ _) Hhs x Hin) as Hx.
    apply wf_outcome_inv in Hx as [k Hk]. rewrite Hk. cbn.
    destruct (lookup "ansible_facts" k); reflexivity. }
  destruct (fold_hosts_values hs Hobj "SKIPPED" "No") as (s & c & Ef & Hs & Hc);
    [cbn; tauto | cbn; tauto |].
  exists s, c.
  assert (Ename : task_name (JObj kvs) = JStr n).
  { unfold task_name, field. cbn [fields]. rewrite Etk. cbn [or_default fields].
    rewrite En. reflexivity. }
  unfold process_task, subscript. rewrite Etk. cbn [bind]. rewrite En. cbn [bind].
  rewrite clean_task_name_str. cbn [bind]. rewrite Ehs. cbn [bind items]. rewrite Ef.
  cbn [bind]. unfold named_gathering_facts, cleaned_name. rewrite Ename.
  split; [destruct (eq_str (JStr n) "Gathering Facts"); reflexivity |].
  split; [exact Hs |]. split; [exact Hc |]. eexists. reflexivity.
Qed.

Lemma process_tasks_entries (P : json -> bool) (ts : list json) :
  forallb (wf_task P) ts = true ->
  exists rs,
    process_tasks ts = Ok rs
    /\ map task rs = map cleaned_name (filter (fun t => negb (named_gathering_facts t)) ts)
    /\ Forall entry_ok rs.
Proof.
  induction ts as [|t tl IH]; intros Hwf.
  - exists []. repeat split. constructor.
  - cbn in Hwf. apply andb_true_iff in Hwf as [Ht Htl].
    destruct (IH Htl) as (rs & Ers & Hnames & Hok).
    destruct (process_task_entry P t Ht) as (s & c & Er & Hs & Hc & Hn).
    cbn [process_tasks filter]. rewrite Er, Ers.
    destruct (named_gathering_facts t); cbn [bind negb].
    + exists rs. repeat split; assumption.
    + eexists. split; [reflexivity |]. split.
      * cbn [map task]. rewrite Hnames. reflexivity.
      * constructor; [|exact Hok]. repeat split; assumption.
Qed.

Lemma process_plays_entries (P : json -> bool) (ps : list json) :
  forallb (wf_play P) ps = true ->
  exists rs,
    process_plays ps = Ok rs
    /\ map task rs
       = map cleaned_name
             (filter (fun t => negb (named_gathering_facts t)) (flat_map play_tasks ps))
    /\ Forall entry_ok rs.
Proof.
  induction ps as [|p tl IH]; intros Hwf.
  - exists []. repeat split. constructor.
  - cbn in Hwf. apply andb_true_iff in Hwf as [Hp Htl].
    destruct (IH Htl) as (rs & Ers & Hnames & Hok).
    apply wf_play_inv in Hp as (kvs & ts & -> & Ets & Hts).
    destruct (process_tasks_entries P ts Hts) as (here & Ehere & Hhere & Hokh).
    cbn [process_plays flat_map]. unfold subscript. rewrite Ets. cbn [bind iter].
    rewrite Ehere, Ers. cbn [bind].
    exists (here ++ rs)%list. split; [reflexivity |]. split.
    + rewrite (play_tasks_obj kvs ts Ets), filter_app, !map_app, Hhere, Hnames.
      reflexivity.
    + apply Forall_app. split; assumption.
Qed.

Lemma timeline_entries (tr : json) :
  shaped_trace tr = true ->
  exists rs,
    timeline tr = Ok rs
    /\ map task rs
       = map cleaned_name
             (filter (fun t => negb (named_gathering_facts t)) (trace_tasks tr))
    /\ Forall entry_ok rs.
Proof.
  intros H. destruct tr as [| | | | |kvs]; try discriminate.
  unfold shaped_trace in H. cbn in H.
  unfold timeline, trace_tasks, field, contains, subscript. cbn [fields].
  destruct (lookup "plays" kvs) as [[| | | |ps|]|] eqn:E; try discriminate;
    cbn [bind iter or_default elements].
  - apply (process_plays_entries _ ps H).
  - exists []. repeat split. constructor.
Qed.

Lemma filter_split_length {A : Type} (f : A -> bool) (l : list A) :
  (List.length (filter (fun x => negb (f x)) l) + List.length (filter f l))%nat
  = List.length l.
Proof.
  induction l as [|x l IH]; [reflexivity |]. cbn [filter].
  destruct (f x); cbn [negb List.length]; lia.
Qed.

(** X7: on a trace of the documented shape the timeline lists the tasks
    in trace order under their cleaned names, and its length is the
    number of tasks less the number of tasks named "Gathering Facts". *)
Theorem timeline_keeps_order_and_count (tr : json) (H : shaped_trace tr = true) :
  exists rs,
    timeline tr = Ok rs
    /\ map task rs
       = map cleaned_name
             (filter (fun t => negb (named_gathering_facts t)) (trace_tasks tr))
    /\ (List.length rs + List.length (filter named_gathering_facts (trace_tasks tr)))%nat
       = List.length (trace_tasks tr).
Proof.
  destruct (timeline_entries tr H) as (rs & E & Hnames & _).
  exists rs. split; [exact E |]. split; [exact Hnames |].
  rewrite <- (filter_split_length named_gathering_facts (trace_tasks tr)).
  f_equal. rewrite <- (length_map task rs), Hnames, length_map. reflexivity.
Qed.

Lemma timeline_keeps_order_and_count_witness :
  exists rs,
    timeline (mk_trace [[mk_task "Gathering Facts" "gather_facts" [];
                         mk_task "common : Install package" "apt" []];
                        [mk_task "Reboot" "reboot" []]]) = Ok rs
    /\ map task rs = [JStr "Install package"; JStr "Reboot"].
Proof.
  destruct (timeline_keeps_order_and_count
              (mk_trace [[mk_task "Gathering Facts" "gather_facts" [];
                          mk_task "common : Install package" "apt" []];
                         [mk_task "Reboot" "reboot" []]]) eq_refl)
    as (rs & E & Hnames & _).
  exists rs. split; [exact E | exact Hnames].
Defined.

(** X8: on a trace of the documented shape every entry of the timeline has
    a status among OK, SKIPPED, FAILED and UNREACHABLE, a changed mark that
    is Yes or No, and a name that is a string. *)
Theorem timeline_entries_are_well_formed (tr : json) (H : shaped_trace tr = true) :
  exists rs,
    timeline tr = Ok rs
    /\ Forall (fun r =>
                 In (status r) ["OK"; "SKIPPED"; "FAILED"; "UNREACHABLE"]
                 /\ In (changed r) ["Yes"; "No"]
                 /\ exists n, task r = JStr n) rs.
Proof.
  destruct (timeline_entries tr H) as (rs & E & _ & Hok).
  exists rs. split; [exact E | exact Hok].
Qed.

Lemma timeline_entries_are_well_formed_witness :
  exists rs,
    timeline (mk_trace [[mk_task "Install" "apt"
                                 [("web1", JObj [("changed", JBool true)]);
                                  ("web2", JObj [("unreachable", JBool true)])]]])
    = Ok rs.
Proof.
  destruct (timeline_entries_are_well_formed
              (mk_trace [[mk_task "Install" "apt"
                                  [("web1", JObj [("changed", JBool true)]);
                                   ("web2", JObj [("unreachable", JBool true)])]]])
              eq_refl) as (rs & E & _).
  exists rs. exact E.
Defined.

(** *** More on the extraction *)

Lemma cpu_model_closed (l : list json) :
  cpu_model_of (JArr l) = Ok (nth 2 l (nth 0 l (JStr "Unknown"))).
Proof.
  unfold cpu_model_of. cbn [len bind index].
  destruct l as [|a [|b [|c tl]]]; try reflexivity.
  replace (2 <? Z.of_nat (List.length (a :: b :: c :: tl))) with true
    by (symmetry; apply Z.ltb_lt; cbn [List.length]; lia).
  reflexivity.
Qed.

(** X9: the CPU field names the third entry of the processor list when
    there are more than two, the first entry when there are one or two,
    and "Unknown" when the list is empty, followed by the number of vCPUs
    (1 when absent). *)
Theorem cpu_names_third_or_first_processor
    (repr : json -> string) (kvs : list (string * json)) (l : list json)
    (e : option string)
    (Hwf : wf_facts repr (JObj kvs) = true)
    (Hl : lookup "ansible_processor" kvs = Some (JArr l)) :
  exists si,
    extract repr {| facts_data := JObj kvs; fact_error := e |} = Ok si
    /\ CPU si
       = py_str repr (nth 2 l (nth 0 l (JStr "Unknown"))) ++ " ("
         ++ py_str repr (or_default (lookup "ansible_processor_vcpus" kvs) (JInt 1))
         ++ " vCPUs)".
Proof.
  destruct (extract_wf repr kvs e Hwf) as (z & model & es & _ & Em & _ & E).
  eexists. split; [exact E |]. cbn [CPU].
  rewrite Hl in Em. cbn [or_default] in Em. rewrite cpu_model_closed in Em.
  injection Em as <-. reflexivity.
Qed.

Lemma cpu_names_third_or_first_processor_witness :
  exists si,
    extract plain_repr
            {| facts_data :=
                 JObj [("ansible_processor",
                        JArr [JStr "0"; JStr "GenuineIntel"; JStr "Xeon E5"]);
                       ("ansible_processor_vcpus", JInt 4)];
               fact_error := None |} = Ok si
    /\ CPU si = "Xeon E5 (4 vCPUs)".
Proof.
  apply (cpu_names_third_or_first_processor plain_repr
           [("ansible_processor", JArr [JStr "0"; JStr "GenuineIntel"; JStr "Xeon E5"]);
            ("ansible_processor_vcpus", JInt 4)]
           [JStr "0"; JStr "GenuineIntel"; JStr "Xeon E5"] None).
  - reflexivity.
  - reflexivity.
Defined.

Lemma interface_entries_closed (repr : json -> string) (kvs : list (string * json))
      (l : list json) :
  forallb (wf_iface repr kvs) l = true ->
  interface_entries repr (JObj kvs) l
  = Ok (map (iface_entry repr kvs) (filter (iface_listed repr kvs) l)).
Proof.
  induction l as [|iface tl IH]; intros Hwf; [reflexivity |].
  cbn in Hwf. apply andb_true_iff in Hwf as [Hi Htl]. specialize (IH Htl).
  cbn [interface_entries filter]. unfold wf_iface in Hi. unfold iface_listed at 1.
  unfold iface_key.
  destruct (eq_str iface "lo"); cbn [negb andb orb] in *; [exact IH |].
  unfold contains, subscript.
  destruct (lookup ("ansible_" ++ py_str repr iface) kvs) as [d|] eqn:Ed;
    cbn [bind is_some]; [|exact IH].
  destruct d as [| | | | |dk]; try discriminate.
  rewrite get_default_obj. cbn [bind]. cbn [wf_details] in Hi.
  cbn [map]. unfold iface_entry at 1. unfold iface_key, field. rewrite Ed.
  cbn [or_default fields].
  destruct (lookup "ipv4" dk) as [[| | | | |ik]|]; try discriminate;
    cbn [or_default fields]; rewrite !get_default_obj; cbn [bind]; rewrite IH;
    reflexivity.
Qed.

(** X10: the Network field has one line for each listed interface, in
    order and separated by line breaks: an interface other than "lo" whose
    details are present under "ansible_<name>"; the line gives the name,
    the IPv4 address and the MAC address, with "N/A" for an address that
    is absent. *)
Theorem network_lists_interfaces_with_details
    (repr : json -> string) (kvs : list (string * json)) (l : list json)
    (e : option string)
    (Hwf : wf_facts repr (JObj kvs) = true)
    (Hl : lookup "ansible_interfaces" kvs = Some (JArr l)) :
  (exists si,
      extract repr {| facts_data := JObj kvs; fact_error := e |} = Ok si
      /\ Network si
         = separated newline
                     (map (iface_entry repr kvs) (filter (iface_listed repr kvs) l)))
  /\ iface_listed repr kvs (JStr "lo") = false
  /\ (forall name, lookup (iface_key repr (JStr name)) kvs = None ->
                   iface_listed repr kvs (JStr name) = false)
  /\ (exists si,
         extract repr
                 {| facts_data :=
                      JObj [("ansible_interfaces",
                             JArr [JStr "lo"; JStr "eth0"; JStr "eth1"; JStr "wlan0"]);
                            ("ansible_lo",
                             JObj [("ipv4", JObj [("address", JStr "127.0.0.1")])]);
                            ("ansible_eth0",
                             JObj [("ipv4", JObj [("address", JStr "10.0.0.5")]);
                                   ("macaddress", JStr "52:54:00:12:34:56")]);
                            ("ansible_wlan0", JObj [])];
                    fact_error := e |} = Ok si
         /\ Network si
            = "eth0: 10.0.0.5 (52:54:00:12:34:56)"
              ++ String "010" "wlan0: N/A (N/A)").
Proof.
  split; [|split; [reflexivity |]; split].
  - destruct (extract_wf repr kvs e Hwf) as (z & model & es & _ & _ & Ees & E).
    eexists. split; [exact E |]. cbn [Network].
    rewrite Hl in Ees. cbn [or_default elements] in Ees.
    rewrite interface_entries_closed in Ees.
    + injection Ees as <-. apply join_separated.
    + cbn [wf_facts] in Hwf. rewrite Hl in Hwf.
      apply andb_true_iff in Hwf as [_ H]. exact H.
  - intros name H. unfold iface_listed. rewrite H. apply andb_false_r.
  - destruct (extract_wf repr
                [("ansible_interfaces",
                  JArr [JStr "lo"; JStr "eth0"; JStr "eth1"; JStr "wlan0"]);
                 ("ansible_lo", JObj [("ipv4", JObj [("address", JStr "127.0.0.1")])]);
                 ("ansible_eth0",
                  JObj [("ipv4", JObj [("address", JStr "10.0.0.5")]);
                        ("macaddress", JStr "52:54:00:12:34:56")]);
                 ("ansible_wlan0", JObj [])]
                e eq_refl) as (z & model & es & _ & _ & Ees & E).
    eexists. split; [exact E |]. cbn [Network].
    cbn in Ees. injection Ees as <-. reflexivity.
Qed.

Lemma network_lists_interfaces_with_details_witness :
  exists si,
    extract plain_repr
            {| facts_data :=
                 JObj [("ansible_interfaces", JArr [JStr "lo"; JStr "eth0"; JStr "wlan0"]);
                       ("ansible_lo", JObj [("ipv4", JObj [("address", JStr "127.0.0.1")])]);
                       ("ansible_eth0", JObj [("macaddress", JStr "52:54:00:12:34:56")]);
                       ("ansible_wlan0",
                        JObj [("ipv4", JObj [("address", JStr "192.168.1.7")])])];
               fact_error := None |} = Ok si
    /\ Network si
       = "eth0: N/A (52:54:00:12:34:56)" ++ String "010" "wlan0: 192.168.1.7 (N/A)".
Proof.
  destruct (network_lists_interfaces_with_details plain_repr
              [("ansible_interfaces", JArr [JStr "lo"; JStr "eth0"; JStr "wlan0"]);
               ("ansible_lo", JObj [("ipv4", JObj [("address", JStr "127.0.0.1")])]);
               ("ansible_eth0", JObj [("macaddress", JStr "52:54:00:12:34:56")]);
               ("ansible_wlan0", JObj [("ipv4", JObj [("address", JStr "192.168.1.7")])])]
              [JStr "lo"; JStr "eth0"; JStr "wlan0"] None eq_refl eq_refl)
    as [(si & E & HN) _].
  exists si. split; [exact E | exact HN].
Defined.

Lemma round_half_even_exact (q d : Z) : 0 < d -> round_half_even (q * d) d = q.
Proof.
  intros Hd. unfold round_half_even.
  rewrite Z.div_mul, Z.mod_mul by lia.
  replace (2 * 0 <? d) with true by (symmetry; apply Z.ltb_lt; lia).
  reflexivity.
Qed.

Lemma rounded_str_whole (k : Z) :
  rounded_str {| negative := false; hundredths := k * 100 |} = digits k ++ ".0".
Proof.
  unfold rounded_str. cbn [negative hundredths].
  rewrite Z.div_mul, Z.mod_mul by lia. reflexivity.
Qed.

Lemma append_assoc (a b c : string) : (a ++ b) ++ c = a ++ b ++ c.
Proof. induction a as [|x a IH]; cbn; [reflexivity | rewrite IH; reflexivity]. Qed.

(** X11: a memory of a whole number [k] of GiB, given in MB, is printed
    as "k.0 GB". *)
Theorem ram_of_whole_gib
    (repr : json -> string) (kvs : list (string * json)) (k : Z) (e : option string)
    (Hwf : wf_facts repr (JObj kvs) = true)
    (Hk : 0 <= k)
    (Hmem : lookup "ansible_memtotal_mb" kvs = Some (JInt (1024 * k))) :
  exists si,
    extract repr {| facts_data := JObj kvs; fact_error := e |} = Ok si
    /\ RAM si = digits k ++ ".0 GB".
Proof.
  destruct (extract_wf repr kvs e Hwf) as (z & model & es & Ez & _ & _ & E).
  eexists. split; [exact E |]. cbn [RAM].
  assert (Hz : z = 1024 * k).
  { rewrite Hmem in Ez. unfold or_default, as_number in Ez. congruence. }
  subst z.
  replace (1024 * k <? 0) with false by (symmetry; apply Z.ltb_ge; lia).
  replace (100 * Z.abs (1024 * k)) with ((k * 100) * 1024) by lia.
  rewrite round_half_even_exact by lia.
  rewrite rounded_str_whole, append_assoc. reflexivity.
Qed.

Lemma ram_of_whole_gib_witness :
  exists si,
    extract plain_repr
            {| facts_data := JObj [("ansible_memtotal_mb", JInt 16384)];
               fact_error := None |} = Ok si
    /\ RAM si = "16.0 GB".
Proof.
  apply (ram_of_whole_gib plain_repr [("ansible_memtotal_mb", JInt 16384)] 16 None).
  - reflexivity.
  - lia.
  - reflexivity.
Defined.

Lemma hostname_of_truthy (st : facts_state) (h : json) :
  hostname_of st = Ok h -> truthy h = true.
Proof.
  unfold hostname_of.
  destruct (get (facts_data st) "ansible_hostname") as [v|]; [cbn [bind] | discriminate].
  intros H. injection H as <-.
  destruct (error_set (fact_error st) && negb (truthy (facts_data st))); [reflexivity |].
  destruct (truthy v) eqn:Ev; [exact Ev | reflexivity].
Qed.

(** X12: the Hostname of an extracted record is never an empty or null
    value: a hostname that is absent, empty, null or zero is replaced by
    "N/A" or by the error text. *)
Theorem hostname_is_never_empty
    (repr : json -> string) (st : facts_state) (si : system_info)
    (H : extract repr st = Ok si) :
  truthy (Hostname si) = true
  /\ (truthy (or_default (lookup "ansible_hostname" (fields (facts_data st))) JNull) = false ->
      fact_error st = None ->
      Hostname si = JStr "N/A").
Proof.
  unfold extract in H. repeat step_bind H. injection H as <-. cbn [Hostname].
  split.
  - eapply hostname_of_truthy. eassumption.
  - intros Hh He.
    match goal with Hq : hostname_of st = Ok _ |- _ => unfold hostname_of in Hq;
      rewrite He in Hq; cbn [error_set andb] in Hq;
      destruct (facts_data st) as [| | | | |kvs]; try discriminate Hq;
      rewrite get_obj in Hq; cbn [bind fields] in Hq, Hh; rewrite Hh in Hq;
      injection Hq as <- end.
    reflexivity.
Qed.

Lemma hostname_is_never_empty_witness :
  exists si,
    extract plain_repr {| facts_data := JObj [("ansible_hostname", JStr "")];
                          fact_error := None |} = Ok si
    /\ Hostname si = JStr "N/A".
Proof.
  eexists. split; [reflexivity |].
  apply (hostname_is_never_empty plain_repr
           {| facts_data := JObj [("ansible_hostname", JStr "")]; fact_error := None |}
           _ eq_refl); reflexivity.
Defined.

(** *** Reading the facts *)

Lemma parse_facts_non_object (repr : json -> string) (raw : json) :
  (forall kvs, raw <> JObj kvs) -> exists e, parse_facts repr raw = Raise e.
Proof.
  intros H. unfold parse_facts.
  destruct raw as [| | |s|l|kvs]; cbn [contains bind].
  - eexists. reflexivity.
  - eexists. reflexivity.
  - eexists. reflexivity.
  - destruct (is_substring "ansible_facts" s); eexists; reflexivity.
  - destruct (existsb (fun x => eq_str x "ansible_facts") l); eexists; reflexivity.
  - exfalso. exact (H kvs eq_refl).
Qed.

(** X13: a facts file that exists but cannot be loaded, or whose content
    is not a JSON object, is reported and treated as absent: no facts, no
    error marker. *)
Theorem unusable_facts_file_is_absent
    (repr : json -> string) (fs : filesystem) (facts_file : string)
    (Hname : facts_file <> "" /\ facts_file <> "none")
    (Hfile : fs facts_file = Unreadable
             \/ exists raw, fs facts_file = Content raw /\ forall kvs, raw <> JObj kvs) :
  read_facts repr fs facts_file = (no_facts, true).
Proof.
  destruct Hname as [H1 H2]. unfold read_facts.
  destruct (String.eqb_spec facts_file "") as [C|_]; [contradiction |].
  destruct (String.eqb_spec facts_file "none") as [C|_]; [contradiction |].
  destruct Hfile as [-> | (raw & -> & Hraw)]; [reflexivity |].
  cbn [negb andb exists_file].
  destruct (parse_facts_non_object repr raw Hraw) as [e ->]. reflexivity.
Qed.

Lemma unusable_facts_file_is_absent_witness :
  read_facts plain_repr (fun _ => Content (JArr [JStr "ansible_facts"])) "facts.json"
  = (no_facts, true).
Proof.
  apply unusable_facts_file_is_absent.
  - split; discriminate.
  - right. eexists. split; [reflexivity |]. discriminate.
Defined.

(** X14: facts found in the snapshot win: when the snapshot holds a
    non-empty [ansible_facts], the resolver returns it without an error
    marker whatever the trace is, of the documented shape or not, and
    whatever [unreachable] and [failed] say. *)
Theorem snapshot_facts_take_precedence
    (repr : json -> string) (fs : filesystem) (facts_file : string)
    (raw : list (string * json)) (facts : json)
    (Hname : facts_file <> "" /\ facts_file <> "none")
    (Hfile : fs facts_file = Content (JObj raw))
    (Hfacts : lookup "ansible_facts" raw = Some facts)
    (Hne : truthy facts = true) :
  forall tr,
    resolve_facts repr fs facts_file tr
    = Ok {| facts_data := facts; fact_error := None |}.
Proof.
  intros tr. destruct Hname as [H1 H2].
  assert (E : read_facts repr fs facts_file
              = ({| facts_data := facts; fact_error := None |}, false)).
  { unfold read_facts.
    destruct (String.eqb_spec facts_file "") as [C|_]; [contradiction |].
    destruct (String.eqb_spec facts_file "none") as [C|_]; [contradiction |].
    rewrite Hfile. cbn [negb andb exists_file].
    unfold parse_facts, contains, subscript. rewrite Hfacts. reflexivity. }
  unfold resolve_facts, fallback, fallback_taken. rewrite E. cbn [fst facts_data].
  rewrite Hne. reflexivity.
Qed.

Lemma snapshot_facts_take_precedence_witness :
  resolve_facts plain_repr
                (fun _ => Content (JObj [("failed", JBool true);
                                         ("ansible_facts", node1_facts)]))
                "facts.json" JNull
  = Ok {| facts_data := node1_facts; fact_error := None |}.
Proof.
  apply (snapshot_facts_take_precedence plain_repr _ "facts.json"
           [("failed", JBool true); ("ansible_facts", node1_facts)]).
  - split; discriminate.
  - reflexivity.
  - reflexivity.
  - reflexivity.
Defined.

(** *** The error marker *)

Lemma parse_facts_marker (repr : json -> string) (raw : json) (st : facts_state)
      (e : string) :
  parse_facts repr raw = Ok st -> fact_error st = Some e ->
  facts_data st = JObj []
  /\ exists m, e = "UNREACHABLE: " ++ m \/ e = "FAILED: " ++ m.
Proof.
  unfold parse_facts. intros H He.
  step_bind H. destruct a.
  - step_bind H. injection H as <-. discriminate He.
  - step_bind H. destruct (truthy a).
    + step_bind H. injection H as <-. cbn in He. injection He as <-.
      split; [reflexivity |]. eexists. left. reflexivity.
    + step_bind H. destruct (truthy a0).
      * step_bind H. injection H as <-. cbn in He. injection He as <-.
        split; [reflexivity |]. eexists. right. reflexivity.
      * injection H as <-. discriminate He.
Qed.

Lemma read_facts_marker (repr : json -> string) (fs : filesystem) (facts_file e : string) :
  fact_error (fst (read_facts repr fs facts_file)) = Some e ->
  facts_data (fst (read_facts repr fs facts_file)) = JObj []
  /\ exists m, e = "UNREACHABLE: " ++ m \/ e = "FAILED: " ++ m.
Proof.
  unfold read_facts.
  destruct (negb (facts_file =? "")%string && negb (facts_file =? "none")%string
            && exists_file (fs facts_file)); [|discriminate].
  destruct (fs facts_file) as [| |raw]; try discriminate.
  destruct (parse_facts repr raw) as [st|] eqn:E; [|discriminate].
  cbn [fst]. apply (parse_facts_marker repr raw st e E).
Qed.

Lemma scan_hosts_marker (hs : list (string * json)) (st st' : facts_state) :
  scan_hosts hs st = Ok st' -> st' = st \/ fact_error st' = None.
Proof.
  induction hs as [|[h res] tl IH]; cbn [scan_hosts]; intros H.
  - injection H as <-. left. reflexivity.
  - step_bind H. destruct a.
    + step_bind H. injection H as <-. right. reflexivity.
    + exact (IH H).
Qed.

Lemma scan_tasks_marker (ts : list json) (st st' : facts_state) :
  scan_tasks ts st = Ok st' -> st' = st \/ fact_error st' = None.
Proof.
  revert st. induction ts as [|t tl IH]; cbn [scan_tasks]; intros st H.
  - injection H as <-. left. reflexivity.
  - step_bind H. step_bind H.
    assert (H1 : a0 = st \/ fact_error a0 = None).
    { destruct a.
      - match goal with Hq : bind _ _ = Ok a0 |- _ =>
                        do 2 step_bind Hq; exact (scan_hosts_marker _ _ _ Hq) end.
      - match goal with Hq : Ok st = Ok a0 |- _ => injection Hq as <- end.
        left. reflexivity. }
    destruct (truthy (facts_data a0)).
    + injection H as <-. exact H1.
    + destruct (IH a0 H) as [-> | Hn]; [exact H1 | right; exact Hn].
Qed.

Lemma scan_plays_marker (ps : list json) (st st' : facts_state) :
  scan_plays ps st = Ok st' -> st' = st \/ fact_error st' = None.
Proof.
  revert st. induction ps as [|p tl IH]; cbn [scan_plays]; intros st H.
  - injection H as <-. left. reflexivity.
  - do 3 step_bind H.
    match goal with Hq : scan_tasks _ st = Ok ?x |- _ =>
                    pose proof (scan_tasks_marker _ _ _ Hq) as H1 end.
    destruct (truthy (facts_data a1)).
    + injection H as <-. exact H1.
    + destruct (IH a1 H) as [-> | Hn]; [exact H1 | right; exact Hn].
Qed.

Lemma fallback_marker (tr : json) (st st' : facts_state) :
  fallback tr st = Ok st' -> st' = st \/ fact_error st' = None.
Proof.
  unfold fallback, fallback_scan. intros H. step_bind H. destruct a.
  - do 2 step_bind H. exact (scan_plays_marker _ _ _ H).
  - injection H as <-. left. reflexivity.
Qed.

(** X15: an error marker that survives the fallback always shows: it
    comes from the snapshot ("UNREACHABLE: ..." or "FAILED: ..."), the fact
    set is then empty, and the Hostname is "ERROR: " followed by it. *)
Theorem surviving_error_marker_reaches_hostname
    (repr : json -> string) (fs : filesystem) (facts_file : string) (tr : json)
    (st : facts_state) (e : string)
    (Hres : resolve_facts repr fs facts_file tr = Ok st)
    (Herr : fact_error st = Some e) :
  facts_data st = JObj []
  /\ (exists m, e = "UNREACHABLE: " ++ m \/ e = "FAILED: " ++ m)
  /\ hostname_of st = Ok (JStr ("ERROR: " ++ e)).
Proof.
  unfold resolve_facts in Hres.
  destruct (fallback_marker _ _ _ Hres) as [-> | Hn]; [|rewrite Hn in Herr; discriminate].
  destruct (read_facts_marker repr fs facts_file e Herr) as [Hf Hm].
  split; [exact Hf |]. split; [exact Hm |].
  unfold hostname_of. rewrite Hf, Herr. rewrite get_obj. cbn [bind lookup or_default truthy negb].
  destruct Hm as [m [-> | ->]]; reflexivity.
Qed.

Lemma surviving_error_marker_reaches_hostname_witness :
  hostname_of {| facts_data := JObj []; fact_error := Some "FAILED: boom" |}
  = Ok (JStr "ERROR: FAILED: boom").
Proof.
  apply (surviving_error_marker_reaches_hostname plain_repr failed_snapshot "facts.json"
           (JObj []) {| facts_data := JObj []; fact_error := Some "FAILED: boom" |}
           "FAILED: boom"); reflexivity.
Defined.

(** *** Where adopted facts come from *)

Lemma scan_hosts_embedded (hs : list (string * json)) (st : facts_state) :
  forallb (fun h => wf_outcome (fun _ => true) (snd h)) hs = true ->
  exists st',
    scan_hosts hs st = Ok st'
    /\ (st' = st \/ (In (facts_data st') (host_facts hs) /\ fact_error st' = None)).
Proof.
  induction hs as [|[h res] tl IH]; intros Hwf.
  - exists st. split; [reflexivity | left; reflexivity].
  - cbn in Hwf. apply andb_true_iff in Hwf as [Hres Htl].
    apply wf_outcome_inv in Hres as [kvs ->].
    cbn [scan_hosts contains]. unfold subscript, host_facts.
    cbn [flat_map snd fields].
    destruct (lookup "ansible_facts" kvs) as [f|]; cbn [bind].
    + eexists. split; [reflexivity |]. right. split; [left; reflexivity | reflexivity].
    + destruct (IH Htl) as (st' & E & [-> | [Hin Hn]]).
      * exists st. split; [exact E | left; reflexivity].
      * exists st'. split; [exact E |]. right. split; [exact Hin | exact Hn].
Qed.

Lemma scan_tasks_embedded (ts : list json) :
  forallb (wf_task (fun _ => true)) ts = true ->
  forall st, exists st',
    scan_tasks ts st = Ok st'
    /\ (st' = st \/ (In (facts_data st') (flat_map task_facts ts) /\ fact_error st' = None)).
Proof.
  induction ts as [|t tl IH]; intros Hwf st.
  - exists st. split; [reflexivity | left; reflexivity].
  - cbn in Hwf. apply andb_true_iff in Hwf as [Ht Htl].
    cbn [scan_tasks flat_map]. rewrite (is_gather_facts_wf _ t Ht). cbn [bind].
    destruct (task_hosts_wf _ t Ht) as [Eh Hh].
    assert (Hstep : exists st1,
               (if gathers t
                then hosts <- subscript t "hosts" ;; hs <- items hosts ;; scan_hosts hs st
                else Ok st) = Ok st1
               /\ (st1 = st \/ (In (facts_data st1) (task_facts t) /\ fact_error st1 = None))).
    { unfold task_facts. destruct (gathers t).
      - rewrite Eh. cbn [bind items]. apply scan_hosts_embedded. exact Hh.
      - exists st. split; [reflexivity | left; reflexivity]. }
    destruct Hstep as (st1 & E1 & H1). rewrite E1. cbn [bind].
    assert (Hkeep : st1 = st
                    \/ (In (facts_data st1) (task_facts t ++ flat_map task_facts tl)
                        /\ fact_error st1 = None)).
    { destruct H1 as [-> | [Hin Hn]]; [left; reflexivity |].
      right. split; [apply in_or_app; left; exact Hin | exact Hn]. }
    destruct (truthy (facts_data st1)).
    + exists st1. split; [reflexivity | exact Hkeep].
    + destruct (IH Htl st1) as (st' & E & [-> | [Hin Hn]]).
      * exists st1. split; [exact E | exact Hkeep].
      * exists st'. split; [exact E |]. right.
        split; [apply in_or_app; right; exact Hin | exact Hn].
Qed.

Lemma scan_plays_embedded (ps : list json) :
  forallb (wf_play (fun _ => true)) ps = true ->
  forall st, exists st',
    scan_plays ps st = Ok st'
    /\ (st' = st
        \/ (In (facts_data st') (flat_map task_facts (flat_map play_tasks ps))
            /\ fact_error st' = None)).
Proof.
  induction ps as [|p tl IH]; intros Hwf st.
  - exists st. split; [reflexivity | left; reflexivity].
  - cbn in Hwf. apply andb_true_iff in Hwf as [Hp Htl].
    apply wf_play_inv in Hp as (kvs & ts & -> & Ets & Hts).
    cbn [scan_plays flat_map]. unfold subscript. rewrite Ets. cbn [bind iter].
    rewrite (play_tasks_obj kvs ts Ets), flat_map_app.
    destruct (scan_tasks_embedded ts Hts st) as (st1 & E1 & H1). rewrite E1. cbn [bind].
    assert (Hkeep : st1 = st
                    \/ (In (facts_data st1)
                           (flat_map task_facts ts
                            ++ flat_map task_facts (flat_map play_tasks tl))
                        /\ fact_error st1 = None)).
    { destruct H1 as [-> | [Hin Hn]]; [left; reflexivity |].
      right. split; [apply in_or_app; left; exact Hin | exact Hn]. }
    destruct (truthy (facts_data st1)).
    + exists st1. split; [reflexivity | exact Hkeep].
    + destruct (IH Htl st1) as (st' & E & [-> | [Hin Hn]]).
      * exists st1. split; [exact E | exact Hkeep].
      * exists st'. split; [exact E |]. right.
        split; [apply in_or_app; right; exact Hin | exact Hn].
Qed.

(** X16: on a trace of the documented shape the fallback returns, and
    either leaves the facts and the error marker as they were or adopts a
    facts mapping embedded in an outcome of a fact-gathering task and
    clears the marker; facts embedded under any other task are never
    adopted, and a non-empty fact set is never replaced. *)
Theorem fallback_adopts_only_gathered_facts
    (tr : json) (st : facts_state) (H : shaped_trace tr = true) :
  exists st',
    fallback tr st = Ok st'
    /\ (st' = st
        \/ (In (facts_data st') (embedded_facts tr) /\ fact_error st' = None))
    /\ (truthy (facts_data st) = true -> st' = st).
Proof.
  destruct tr as [| | | | |kvs]; try discriminate.
  unfold shaped_trace in H. cbn in H.
  unfold fallback, fallback_taken, fallback_scan, contains, subscript.
  change (embedded_facts (JObj kvs))
    with (flat_map task_facts (flat_map play_tasks (elements (field "plays" (JObj kvs))))).
  unfold field. cbn [fields].
  destruct (truthy (facts_data st)); cbn [negb bind].
  - exists st. split; [reflexivity |]. split; [left; reflexivity | reflexivity].
  - destruct (lookup "plays" kvs) as [[| | | |ps|]|]; try discriminate;
      cbn [bind iter or_default elements].
    + destruct (scan_plays_embedded ps H st) as (st' & E & Hst').
      exists st'. split; [exact E |]. split; [exact Hst' | discriminate].
    + exists st. split; [reflexivity |]. split; [left; reflexivity | discriminate].
Qed.

Lemma fallback_adopts_only_gathered_facts_witness :
  exists st',
    fallback (mk_trace [[mk_task "Install" "apt"
                                 [("node1", JObj [("ansible_facts", node1_facts)])]]])
             no_facts = Ok st'
    /\ (st' = no_facts
        \/ (In (facts_data st')
               (embedded_facts
                  (mk_trace [[mk_task "Install" "apt"
                                      [("node1", JObj [("ansible_facts", node1_facts)])]]]))
            /\ fact_error st' = None)).
Proof.
  destruct (fallback_adopts_only_gathered_facts
              (mk_trace [[mk_task "Install" "apt"
                                  [("node1", JObj [("ansible_facts", node1_facts)])]]])
              no_facts eq_refl) as (st' & E & Hst' & _).
  exists st'. split; [exact E | exact Hst'].
Defined.

(** *** What generate_report writes *)

Section Run.

Variable repr : json -> string.
Variables now_iso now_text : string.
Variable host : platform.

(** The run of [generate_report] on a trace that loads, read off the
    results of the fact resolver, the timeline and the rendering and the
    platform's answers. *)
Lemma generate_report_cases
      (fs : filesystem) (playbook_json facts_file report_dir : string) (pd : json) :
  fs playbook_json = Content pd ->
  let run := generate_report repr now_iso now_text host fs playbook_json facts_file
                             report_dir start in
  match fact_resolver repr fs facts_file pd with
  | Raise e => written (fst run) = [] /\ snd run = Uncaught e
  | Ok si =>
      match timeline pd with
      | Raise e => written (fst run) = [] /\ snd run = Uncaught e
      | Ok tl =>
          let r := {| timestamp := now_iso; report_system_info := si;
                      playbook_execution := tl |} in
          if can_write host (json_path report_dir) then
            match render repr now_text host si tl with
            | Raise e =>
                written (fst run) = [(json_path report_dir, JsonFile r)]
                /\ snd run = Uncaught e
            | Ok p =>
                if can_write host (pdf_path report_dir) then
                  written (fst run) = [(json_path report_dir, JsonFile r);
                                       (pdf_path report_dir, PdfFile p)]
                  /\ snd run = Done
                  /\ exists pre,
                      stdout (fst run)
                      = (pre ++ [UnifiedJsonReport (json_path report_dir);
                                 PdfReportGenerated (pdf_path report_dir)])%list
                else
                  written (fst run) = [(json_path report_dir, JsonFile r)]
                  /\ snd run = Uncaught OSError
            end
          else written (fst run) = [] /\ snd run = Uncaught OSError
      end
  end.
Proof.
  intros Hfile. cbv zeta.
  unfold generate_report, fact_resolver, resolve_facts, fallback, json_path, pdf_path.
  rewrite Hfile. destruct (read_facts repr fs facts_file) as [st0 c]. cbn [fst].
  destruct (fallback_taken pd st0) as [taken|e]; cbn [bind].
  - destruct (if taken then fallback_scan pd st0 else Ok st0) as [st|e]; cbn [bind].
    + destruct (extract repr st) as [si|e]; cbn [bind].
      * destruct (timeline pd) as [tl|e]; cbn [bind].
        -- destruct (can_write host (path_join report_dir "final_report.json")).
           ++ destruct (render repr now_text host si tl) as [p|e].
              ** destruct (can_write host (path_join report_dir "report.pdf")).
                 --- split; [destruct c, taken; reflexivity |].
                     split; [destruct c, taken; reflexivity |].
                     exists ((if c then [ErrorLoadingFacts] else [])
                             ++ (if taken then [UsingFallback] else []))%list.
                     destruct c, taken; reflexivity.
                 --- destruct c, taken; cbn; split; reflexivity.
              ** destruct c, taken; cbn; split; reflexivity.
           ++ destruct c, taken; cbn; split; reflexivity.
        -- destruct c, taken; cbn; split; reflexivity.
      * destruct c, taken; cbn; split; reflexivity.
    + destruct c, taken; cbn; split; reflexivity.
  - destruct c; cbn; split; reflexivity.
Qed.

(** X17: [generate_report] writes nothing, or the JSON report alone, or
    the JSON report and then the PDF; it writes the PDF only after the
    JSON report, ends normally with both written or with nothing written
    (the trace did not load), and ends by an uncaught exception otherwise. *)
Theorem artifacts_are_none_json_or_both
    (fs : filesystem) (playbook_json facts_file report_dir : string) :
  let run := generate_report repr now_iso now_text host fs playbook_json facts_file
                             report_dir start in
  (written (fst run) = []
   /\ ((snd run = Done /\ stdout (fst run) = [ErrorLoadingPlaybook])
       \/ exists e, snd run = Uncaught e))
  \/ (exists r e, written (fst run) = [(json_path report_dir, JsonFile r)]
                  /\ snd run = Uncaught e)
  \/ (exists r p, written (fst run) = [(json_path report_dir, JsonFile r);
                                       (pdf_path report_dir, PdfFile p)]
                  /\ snd run = Done).
Proof.
  cbv zeta. destruct (fs playbook_json) as [| |pd] eqn:Hfile.
  - left. unfold generate_report. rewrite Hfile. split; [reflexivity |].
    left. split; reflexivity.
  - left. unfold generate_report. rewrite Hfile. split; [reflexivity |].
    left. split; reflexivity.
  - pose proof (generate_report_cases fs playbook_json facts_file report_dir pd Hfile) as H.
    cbv zeta in H.
    destruct (fact_resolver repr fs facts_file pd) as [si|e].
    + destruct (timeline pd) as [tl|e].
      * destruct (can_write host (json_path report_dir)).
        -- destruct (render repr now_text host si tl) as [p|e].
           ++ destruct (can_write host (pdf_path report_dir)).
              ** destruct H as (Hw & Hd & _). right. right. eexists _, _.
                 split; eassumption.
              ** destruct H as (Hw & Hd). right. left. eexists _, _. split; eassumption.
           ++ destruct H as (Hw & Hd). right. left. eexists _, _. split; eassumption.
        -- destruct H as (Hw & Hd). left. split; [exact Hw |]. right. eexists. exact Hd.
      * destruct H as (Hw & Hd). left. split; [exact Hw |]. right. eexists. exact Hd.
    + destruct H as (Hw & Hd). left. split; [exact Hw |]. right. eexists. exact Hd.
Qed.

(** X18: when the trace loads, the JSON report is written exactly when
    the fact resolver and the timeline both return and its path can be
    opened for writing; it holds the timestamp, the resolver's record and
    the timeline's entries.  When the path cannot be opened nothing is
    written and the run ends by [OSError]. *)
Theorem report_holds_resolver_and_timeline
    (fs : filesystem) (playbook_json facts_file report_dir : string) (pd : json)
    (Hfile : fs playbook_json = Content pd) :
  let run := generate_report repr now_iso now_text host fs playbook_json facts_file
                             report_dir start in
  (forall path r,
      In (path, JsonFile r) (written (fst run)) ->
      path = json_path report_dir
      /\ can_write host (json_path report_dir) = true
      /\ timestamp r = now_iso
      /\ fact_resolver repr fs facts_file pd = Ok (report_system_info r)
      /\ timeline pd = Ok (playbook_execution r))
  /\ (forall si tl,
         fact_resolver repr fs facts_file pd = Ok si ->
         timeline pd = Ok tl ->
         (can_write host (json_path report_dir) = true ->
          In (json_path report_dir,
              JsonFile {| timestamp := now_iso; report_system_info := si;
                          playbook_execution := tl |})
             (written (fst run)))
         /\ (can_write host (json_path report_dir) = false ->
             written (fst run) = [] /\ snd run = Uncaught OSError)).
Proof.
  pose proof (generate_report_cases fs playbook_json facts_file report_dir pd Hfile) as H.
  cbv zeta in H |- *.
  destruct (fact_resolver repr fs facts_file pd) as [si|e].
  - destruct (timeline pd) as [tl|e].
    + destruct (can_write host (json_path report_dir)) eqn:Hcw.
      * assert (Hw : forall path r,
                   In (path, JsonFile r)
                      (written (fst (generate_report repr now_iso now_text host fs
                                                     playbook_json facts_file report_dir
                                                     start))) ->
                   path = json_path report_dir
                   /\ r = {| timestamp := now_iso; report_system_info := si;
                             playbook_execution := tl |}).
        { intros path r Hin.
          destruct (render repr now_text host si tl) as [p|e].
          - destruct (can_write host (pdf_path report_dir)).
            + destruct H as (Hw & _). rewrite Hw in Hin.
              destruct Hin as [E | [E | []]]; [|discriminate E].
              injection E as <- <-. split; reflexivity.
            + destruct H as (Hw & _). rewrite Hw in Hin.
              destruct Hin as [E | []]. injection E as <- <-. split; reflexivity.
          - destruct H as (Hw & _). rewrite Hw in Hin.
            destruct Hin as [E | []]. injection E as <- <-. split; reflexivity. }
        split.
        -- intros path r Hin. destruct (Hw path r Hin) as [-> ->]. repeat split.
        -- intros si' tl' E1 E2. injection E1 as <-. injection E2 as <-.
           split; [intros _ | discriminate].
           destruct (render repr now_text host si tl) as [p|e];
             [destruct (can_write host (pdf_path report_dir)) |];
             destruct H as (Hwr & _); rewrite Hwr; left; reflexivity.
      * destruct H as (Hw & Hd). rewrite Hw. split; [intros ? ? [] |].
        intros si' tl' _ _. split; [discriminate |]. intros _. split; [reflexivity | exact Hd].
    + destruct H as (Hw & _). rewrite Hw. split; [intros ? ? [] | discriminate].
  - destruct H as (Hw & _). rewrite Hw. split; [intros ? ? [] | discriminate].
Qed.

End Run.

Lemma report_holds_resolver_and_timeline_witness :
  In (json_path "reports",
      JsonFile {| timestamp := "2026-01-01T00:00:00";
                  report_system_info :=
                    {| Hostname := JStr "ERROR: FAILED: boom";
                       OS := "None None";
                       Architecture := JStr "N/A";
                       Kernel := JStr "N/A";
                       CPU := "Unknown (1 vCPUs)";
                       RAM := "0.0 GB";
                       Storage := "";
                       Network := "" |};
                  playbook_execution := [] |})
     (written (fst (generate_report plain_repr "2026-01-01T00:00:00" "2026-01-01 00:00:00"
                                    plain_host
                                    (fun path => if (path =? "playbook.json")%string
                                                 then Content (JObj [])
                                                 else failed_snapshot path)
                                    "playbook.json" "facts.json" "reports" start))).
Proof.
  apply (proj2 (report_holds_resolver_and_timeline
                  plain_repr "2026-01-01T00:00:00" "2026-01-01 00:00:00" plain_host
                  (fun path => if (path =? "playbook.json")%string
                               then Content (JObj [])
                               else failed_snapshot path)
                  "playbook.json" "facts.json" "reports" (JObj []) eq_refl)).
  - reflexivity.
  - reflexivity.
  - reflexivity.
Defined.

(** *** The rows handed to FPDF *)







Lemma render_non_text_hostname (repr : json -> string) (now_text : string)
      (host : platform) (si : system_info) (tasks : list task_result) :
  (forall s, Hostname si <> JStr s) ->
  render repr now_text host si tasks = Raise AttributeError.
Proof.
  intros H. unfold render, info_items. cbn [render_info].
  unfold formatted at 1. cbn [String.eqb Ascii.eqb Bool.eqb].
  destruct (Hostname si) as [| | |s| |]; try reflexivity.
  exfalso. exact (H s eq_refl).
Qed.

Section Completion.

Variable repr : json -> string.
Variables now_iso now_text : string.
Variable host : platform.

(** X20: when the JSON report's path can be opened for writing, a
    hostname that is not a string (a number in the facts, say) stops the
    script between its two artifacts: the JSON report is written, the
    rendering raises [AttributeError], no PDF is written and the exit
    status is 1. *)
Theorem non_text_hostname_leaves_json_only
    (fs : filesystem) (playbook_json facts_file report_dir : string) (pd : json)
    (si : system_info) (tl : list task_result)
    (Hfile : fs playbook_json = Content pd)
    (Hres : fact_resolver repr fs facts_file pd = Ok si)
    (Htl : timeline pd = Ok tl)
    (Hdir : can_write host (json_path report_dir) = true)
    (Hhost : forall s, Hostname si <> JStr s) :
  let run := generate_report repr now_iso now_text host fs playbook_json facts_file
                             report_dir start in
  written (fst run)
  = [(json_path report_dir,
      JsonFile {| timestamp := now_iso; report_system_info := si;
                  playbook_execution := tl |})]
  /\ snd run = Uncaught AttributeError
  /\ exit_status (snd run) = 1.
Proof.
  pose proof (generate_report_cases repr now_iso now_text host fs playbook_json facts_file
                                    report_dir pd Hfile) as H.
  cbv zeta in H |- *.
  rewrite Hres, Htl, Hdir, (render_non_text_hostname repr now_text host si tl Hhost) in H.
  destruct H as (Hw & He). rewrite Hw, He. repeat split.
Qed.





End Completion.

Lemma non_text_hostname_leaves_json_only_witness :
  exit_status (snd (generate_report plain_repr "2026-01-01T00:00:00" "2026-01-01 00:00:00"
                                    plain_host numeric_hostname_files
                                    "playbook.json" "facts.json" "reports" start)) = 1.
Proof.
  apply (non_text_hostname_leaves_json_only
           plain_repr "2026-01-01T00:00:00" "2026-01-01 00:00:00" plain_host
           numeric_hostname_files "playbook.json" "facts.json" "reports" (JObj [])
           {| Hostname := JInt 42; OS := "None None"; Architecture := JStr "N/A";
              Kernel := JStr "N/A"; CPU := "Unknown (1 vCPUs)"; RAM := "0.0 GB";
              Storage := ""; Network := "" |} []).
  - reflexivity.
  - reflexivity.
  - reflexivity.
  - reflexivity.
  - discriminate.
Defined.


(** *** Notices *)

Lemma parse_facts_object (repr : json -> string) (kvs : list (string * json)) :
  exists st, parse_facts repr (JObj kvs) = Ok st.
Proof.
  unfold parse_facts, contains, subscript.
  destruct (lookup "ansible_facts" kvs); cbn [bind]; [eexists; reflexivity |].
  rewrite !get_obj. cbn [bind].
  destruct (truthy (or_default (lookup "unreachable" kvs) JNull)); cbn [bind];
    [rewrite get_default_obj; eexists; reflexivity |].
  destruct (truthy (or_default (lookup "failed" kvs) JNull)); cbn [bind];
    [rewrite get_default_obj; eexists; reflexivity |].
  eexists. reflexivity.
Qed.

(** When section 2 prints "Error loading facts file". *)
Lemma read_facts_complains (repr : json -> string) (fs : filesystem) (facts_file : string) :
  snd (read_facts repr fs facts_file) = true
  <-> facts_file <> "" /\ facts_file <> "none"
      /\ (fs facts_file = Unreadable
          \/ exists raw, fs facts_file = Content raw /\ forall kvs, raw <> JObj kvs).
Proof.
  unfold read_facts.
  destruct (String.eqb_spec facts_file "") as [E1|N1]; cbn [negb andb].
  { split; [discriminate | intros (C & _); contradiction]. }
  destruct (String.eqb_spec facts_file "none") as [E2|N2]; cbn [negb andb].
  { split; [discriminate | intros (_ & C & _); contradiction]. }
  destruct (fs facts_file) as [| |raw] eqn:Ef; cbn [exists_file snd].
  - split; [discriminate |].
    intros (_ & _ & [C | (raw & C & _)]); discriminate C.
  - split; [|reflexivity]. intros _. split; [exact N1 |]. split; [exact N2 |].
    left. reflexivity.
  - destruct raw as [| | | | |kvs].
    6: { destruct (parse_facts_object repr kvs) as [st ->]. cbn [snd].
         split; [discriminate |].
         intros (_ & _ & [C | (raw & C & Hraw)]); [discriminate C |].
         injection C as <-. exfalso. exact (Hraw kvs eq_refl). }
    all: match goal with
         | |- context [parse_facts ?f ?r] =>
             destruct (parse_facts_non_object f r) as [e ->]; [discriminate |]
         end;
      cbn [snd]; (split; [|reflexivity]); intros _;
      (split; [exact N1 |]); (split; [exact N2 |]);
      right; eexists; (split; [reflexivity | discriminate]).
Qed.

(** When section 2 leaves a fact set that is not empty. *)
Lemma read_facts_finds_facts (repr : json -> string) (fs : filesystem)
      (facts_file : string) :
  truthy (facts_data (fst (read_facts repr fs facts_file))) = true
  <-> facts_file <> "" /\ facts_file <> "none"
      /\ exists raw f, fs facts_file = Content (JObj raw)
                       /\ lookup "ansible_facts" raw = Some f /\ truthy f = true.
Proof.
  unfold read_facts.
  destruct (String.eqb_spec facts_file "") as [E1|N1]; cbn [negb andb].
  { split; [discriminate | intros (C & _); contradiction]. }
  destruct (String.eqb_spec facts_file "none") as [E2|N2]; cbn [negb andb].
  { split; [discriminate | intros (_ & C & _); contradiction]. }
  destruct (fs facts_file) as [| |raw] eqn:Ef; cbn [exists_file fst].
  - split; [discriminate | intros (_ & _ & raw & f & C & _); discriminate C].
  - split; [discriminate | intros (_ & _ & raw & f & C & _); discriminate C].
  - destruct raw as [| | | | |kvs].
    6: { unfold parse_facts, contains, subscript.
         destruct (lookup "ansible_facts" kvs) as [f|] eqn:El; cbn [bind fst facts_data].
         - split.
           + intros Ht. split; [exact N1 |]. split; [exact N2 |].
             exists kvs, f. repeat split; assumption.
           + intros (_ & _ & raw & f' & C & El' & Ht). injection C as <-.
             rewrite El in El'. injection El' as <-. exact Ht.
         - rewrite !get_obj. cbn [bind].
           split.
           + destruct (truthy (or_default (lookup "unreachable" kvs) JNull)); cbn [bind];
               [rewrite get_default_obj; cbn [bind fst facts_data truthy]; discriminate |].
             destruct (truthy (or_default (lookup "failed" kvs) JNull)); cbn [bind];
               [rewrite get_default_obj; cbn [bind fst facts_data truthy]; discriminate |].
             cbn. discriminate.
           + intros (_ & _ & raw & f' & C & El' & _). injection C as <-.
             rewrite El in El'. discriminate El'. }
    all: match goal with
         | |- context [parse_facts ?f ?r] =>
             destruct (parse_facts_non_object f r) as [e ->]; [discriminate |]
         end;
      cbn [fst]; (split; [discriminate |]);
      intros (_ & _ & raw & f' & C & _); discriminate C.
Qed.

(** X22: on a trace that loads, "Error loading facts file" is printed
    exactly when the facts file is named (neither empty nor "none"),
    exists and cannot be loaded or does not hold a JSON object, and the
    fallback notice exactly when the trace has [plays] and the facts file
    gave no facts (it is not named, or does not hold an object with a
    non-empty [ansible_facts]); this holds also when the run later ends by
    an exception.  The playbook loading error is not printed. *)
Theorem notices_follow_the_facts_path
    (repr : json -> string) (now_iso now_text : string) (host : platform)
    (fs : filesystem) (playbook_json facts_file report_dir : string) (pd : json)
    (Hfile : fs playbook_json = Content pd) :
  let run := generate_report repr now_iso now_text host fs playbook_json facts_file
                             report_dir start in
  (In ErrorLoadingFacts (stdout (fst run))
   <-> facts_file <> "" /\ facts_file <> "none"
       /\ (fs facts_file = Unreadable
           \/ exists raw, fs facts_file = Content raw /\ forall kvs, raw <> JObj kvs))
  /\ (In UsingFallback (stdout (fst run))
      <-> contains "plays" pd = Ok true
          /\ ~ (facts_file <> "" /\ facts_file <> "none"
                /\ exists raw f, fs facts_file = Content (JObj raw)
                                 /\ lookup "ansible_facts" raw = Some f
                                 /\ truthy f = true))
  /\ ~ In ErrorLoadingPlaybook (stdout (fst run)).
Proof.
  cbv zeta.
  rewrite <- (read_facts_complains repr fs facts_file).
  rewrite <- (read_facts_finds_facts repr fs facts_file).
  assert (Htaken : forall st0 : facts_state,
             fallback_taken pd st0 = Ok true
             <-> contains "plays" pd = Ok true /\ ~ truthy (facts_data st0) = true).
  { intros st0. unfold fallback_taken.
    destruct (truthy (facts_data st0)); cbn [negb].
    - split; [discriminate | intros [_ C]; exfalso; apply C; reflexivity].
    - split; [intros H; split; [exact H | discriminate] | intros [H _]; exact H]. }
  rewrite <- Htaken.
  unfold generate_report. rewrite Hfile.
  destruct (read_facts repr fs facts_file) as [st0 c]. cbn [fst snd].
  destruct (fallback_taken pd st0) as [taken|e].
  - destruct (bind (if taken then fallback_scan pd st0 else Ok st0) _) as [[si tl]|e].
    + destruct (can_write host (path_join report_dir "final_report.json"));
        [destruct (render repr now_text host si tl) as [p|e];
         [destruct (can_write host (path_join report_dir "report.pdf")) |] |];
        destruct c, taken; cbn;
        (repeat split; try (intros [H | H]); try (intros H);
         repeat match goal with
                | H : _ \/ _ |- _ => destruct H
                | H : False |- _ => destruct H
                end; try discriminate; try tauto).
    + destruct c, taken; cbn;
        (repeat split; try (intros [H | H]); try (intros H);
         repeat match goal with
                | H : _ \/ _ |- _ => destruct H
                | H : False |- _ => destruct H
                end; try discriminate; try tauto).
  - destruct c; cbn;
      (repeat split; try (intros [H | H]); try (intros H);
       repeat match goal with
              | H : _ \/ _ |- _ => destruct H
              | H : False |- _ => destruct H
              end; try discriminate; try tauto).
Qed.

Lemma notices_follow_the_facts_path_witness :
  In UsingFallback
     (stdout (fst (generate_report plain_repr "2026-01-01T00:00:00" "2026-01-01 00:00:00"
                                   plain_host node1_files "playbook.json" "none" "reports"
                                   start))).
Proof.
  apply (proj1 (proj2 (notices_follow_the_facts_path
                         plain_repr "2026-01-01T00:00:00" "2026-01-01 00:00:00" plain_host
                         node1_files "playbook.json" "none" "reports"
                         (mk_trace [[mk_task "Gathering Facts" "gather_facts"
                                             [("node1", JObj [("ansible_facts", node1_facts)])];
                                     mk_task "common : Install package" "apt"
                                             [("node1", JObj [("changed", JBool true)])]]])
                         eq_refl))).
  split; [reflexivity |]. intros (_ & C & _). apply C. reflexivity.
Defined.
